(** * ElectriScribe: the electrical constraint-analysis engine

    A shallow embedding of
    [apps/builder/src/services/analysis/electrical_system_analyzer.py]
    and the properties of its wire table, load aggregation, analyzers,
    transactional validation and report status.

    Modelling conventions.
    - A Python [float] is an IEEE 754 binary64 number: Rocq's primitive
      [float], with the same round-to-nearest-even arithmetic.  What Python
      does differently from IEEE is written out: [/] raises
      [ZeroDivisionError] on a zero divisor, [x ** 2] raises
      [OverflowError] when a finite operand overflows, [math.sqrt] raises
      [ValueError] on a negative operand.  [x ** 2] is taken to be the
      correctly rounded square and [sum] to accumulate from left to right.
    - A Python [int] is a [Z]; the integer entries of the wire table are
      written as the floats they convert to in mixed arithmetic.
    - An exception is a value of [exn]; a computation that may raise
      returns a [result].
    - [self.circuits] and [self.system_hierarchy] are finite maps keyed by
      strings; the insertion-ordered dictionaries that the code iterates
      over (harmonic contents, the wire table) are association lists.
    - [analyze_fault_current] takes no part in validation or in the report
      and is not embedded.
    - The source text carries the two-character sequence backslash-n in
      place of some line breaks (statements of [validate_system_constraints]
      and three entries of the configuration dictionary); they are read as
      line breaks.  The three thresholds concerned are fetched with
      [dict.get] and a default, which [config_get] models: an absent entry
      and the default entry behave alike. *)

From Stdlib Require Import ZArith Bool Floats Lia.
From stdpp Require Import base option list gmap strings.

Set Warnings "-inexact-float".
Local Open Scope string_scope.

(** ** Exceptions and results *)

Inductive exn : Type :=
  | UnknownWireSize (awg : string)   (* ValueError("Unknown wire size: ...") *)
  | NotInList (x : string)           (* ValueError of list.index *)
  | MathDomainError                  (* ValueError of math.sqrt *)
  | ZeroDivisionError
  | OverflowError
  | ClockError.                      (* the timestamp expression raised *)

Inductive result (A : Type) : Type :=
  | Ok (a : A)
  | Raise (e : exn).
Arguments Ok {A} a.
Arguments Raise {A} e.

Definition rbind {A B : Type} (r : result A) (k : A -> result B) : result B :=
  match r with
  | Ok a => k a
  | Raise e => Raise e
  end.

Notation "x <- r ;; k" := (rbind r (fun x => k))
  (at level 100, r at next level, right associativity).

(** ** Python arithmetic on floats *)

Module Py.

Definition fzero : float := 0%float.

(** [x / y] *)
Definition div (x y : float) : result float :=
  if PrimFloat.eqb y fzero then Raise ZeroDivisionError
  else Ok (PrimFloat.div x y).

(** [x ** 2] on a float *)
Definition pow2 (x : float) : result float :=
  let r := PrimFloat.mul x x in
  if PrimFloat.is_infinity r && negb (PrimFloat.is_infinity x)
  then Raise OverflowError else Ok r.

(** [math.sqrt(x)] *)
Definition sqrt (x : float) : result float :=
  if PrimFloat.ltb x fzero then Raise MathDomainError
  else Ok (PrimFloat.sqrt x).

(** [max(a, b)]: the second argument wins only when it is greater *)
Definition max (a b : float) : float :=
  if PrimFloat.ltb a b then b else a.

(** conversion of an [int] operand in mixed arithmetic *)
Definition of_int (z : Z) : result float :=
  let f := SF2Prim (binary_normalize prec emax z 0 false) in
  if PrimFloat.is_infinity f then Raise OverflowError else Ok f.

(** truth value of an [Optional[str]] *)
Definition truthy (o : option string) : bool :=
  match o with
  | Some s => negb (String.eqb s "")
  | None => false
  end.

End Py.

(** ** Enumerations and records *)

Inductive CircuitType := BRANCH | FEEDER | SERVICE | SUBPANEL.
Inductive LoadType := RESISTIVE | MOTOR | ELECTRONIC | LIGHTING | HVAC | CRITICAL.
Inductive ProtectionType := BREAKER | FUSE | GFCI | AFCI.

Definition LoadType_eqb (a b : LoadType) : bool :=
  match a, b with
  | RESISTIVE, RESISTIVE | MOTOR, MOTOR | ELECTRONIC, ELECTRONIC
  | LIGHTING, LIGHTING | HVAC, HVAC | CRITICAL, CRITICAL => true
  | _, _ => false
  end.

Record WireProperties := {
  awg_size : string;
  diameter_mils : float;
  area_cmil : float;
  resistance_ohm_per_kft : float;
  ampacity_60c : float;
  ampacity_75c : float;
  ampacity_90c : float
}.

Record LoadData := {
  load_id : string;
  load_type : LoadType;
  nominal_voltage : float;
  nominal_current : float;
  nominal_power : float;
  power_factor : float;
  starting_current_multiplier : float;
  diversity_factor : float;
  critical_load : bool;
  harmonic_content : list (Z * float);
  operating_schedule : list float
}.

Record ProtectionDevice := {
  device_id : string;
  protection_type : ProtectionType;
  current_rating : float;
  device_voltage_rating : float;
  interrupting_rating : float;
  trip_curve_type : string;
  instantaneous_trip_multiplier : float;
  time_delay_characteristics : list (string * float)
}.

Record CircuitData := {
  circuit_id : string;
  circuit_type : CircuitType;
  wire_awg : string;
  wire_length_ft : float;
  conduit_fill_percentage : float;
  ambient_temperature_c : float;
  number_of_conductors : Z;
  voltage_rating : float;
  loads : list LoadData;
  protection_device : ProtectionDevice;
  parent_circuit_id : option string
}.

(** ** The wire table *)

Module StandardWireData.

Definition wire (s : string) (d a r a60 a75 a90 : float) : string * WireProperties :=
  (s, {| awg_size := s; diameter_mils := d; area_cmil := a;
         resistance_ohm_per_kft := r;
         ampacity_60c := a60; ampacity_75c := a75; ampacity_90c := a90 |}).

Definition WIRE_DATA : list (string * WireProperties) :=
  [ wire "14" 64.1 4107 3.07 15 20 25;
    wire "12" 80.8 6530 1.93 20 25 30;
    wire "10" 101.9 10380 1.21 30 35 40;
    wire "8" 128.5 16510 0.764 40 50 55;
    wire "6" 162.0 26240 0.491 55 65 75;
    wire "4" 204.3 41740 0.308 70 85 95;
    wire "2" 257.6 66360 0.194 95 115 130;
    wire "1" 289.3 83690 0.154 110 130 150;
    wire "1/0" 325.0 105600 0.122 125 150 170;
    wire "2/0" 365.0 133100 0.0967 145 175 195;
    wire "3/0" 409.6 167800 0.0766 165 200 225;
    wire "4/0" 460.0 211600 0.0608 195 230 260;
    wire "250" 500.0 250000 0.0515 215 255 290;
    wire "300" 547.0 300000 0.0429 240 285 320;
    wire "350" 591.0 350000 0.0367 260 310 350;
    wire "400" 632.0 400000 0.0321 280 335 380;
    wire "500" 707.0 500000 0.0258 320 380 430 ]%float.

(** [dict.get] on an association list *)
Fixpoint assoc {V : Type} (k : string) (d : list (string * V)) : option V :=
  match d with
  | [] => None
  | (k', v) :: rest => if String.eqb k k' then Some v else assoc k rest
  end.

Definition get_wire_properties (awg : string) : option WireProperties :=
  assoc awg WIRE_DATA.

Definition get_ampacity (awg : string) (temperature_rating : Z) : float :=
  match get_wire_properties awg with
  | None => 0%float
  | Some wire =>
      if (temperature_rating <=? 60)%Z then ampacity_60c wire
      else if (temperature_rating <=? 75)%Z then ampacity_75c wire
      else ampacity_90c wire
  end.

End StandardWireData.
Import StandardWireData.

(** ** Configuration *)

Record Config := {
  voltage_drop_limit_percent : float;
  temperature_derating_enabled : bool;
  harmonic_analysis_enabled : bool;
  fault_current_safety_margin : float;
  thermal_safety_margin : float;
  parent_loading_limit_percent : option float;
  thd_current_limit_percent : option float;
  thermal_margin_min_percent : option float
}.

(** [self.config.get(key, default)] *)
Definition config_get (entry : option float) (dflt : float) : float :=
  match entry with
  | Some v => v
  | None => dflt
  end.

(** the dictionary built by [__init__]; the last three entries follow a
    comment sign on one line of the source text, and [config_get] returns
    the same thresholds with or without them *)
Definition default_config : Config := {|
  voltage_drop_limit_percent := 3.0;
  temperature_derating_enabled := true;
  harmonic_analysis_enabled := true;
  fault_current_safety_margin := 0.8;
  thermal_safety_margin := 0.75;
  parent_loading_limit_percent := Some 80.0%float;
  thd_current_limit_percent := Some 20.0%float;
  thermal_margin_min_percent := Some 20.0%float
|}.

(** ** Load aggregation: [calculate_load_current] *)

Record LoadAnalysis := {
  continuous_current : float;
  non_continuous_current : float;
  design_current : float;
  motor_starting_peak : float;
  harmonic_currents : list (Z * float)
}.

(** [if k not in d: d[k] = 0.0] followed by [d[k] += v], on a dictionary
    that keeps insertion order *)
Fixpoint dict_accumulate (k : Z) (v : float) (d : list (Z * float)) : list (Z * float) :=
  match d with
  | [] => [(k, PrimFloat.add 0 v)]
  | (k', x) :: rest =>
      if (k =? k')%Z then (k', PrimFloat.add x v) :: rest
      else (k', x) :: dict_accumulate k v rest
  end.

(** the inner loop over [load.harmonic_content.items()] *)
Definition accumulate_harmonics (current : float) (content : list (Z * float))
    (d : list (Z * float)) : list (Z * float) :=
  fold_left (fun acc om => dict_accumulate (fst om) (PrimFloat.mul current (snd om)) acc)
            content d.

(** the current of one load after the diversity and time-of-day factors *)
Definition base_current (include_diversity : bool) (time_of_day_hour : option Z)
    (load : LoadData) : float :=
  let b := nominal_current load in
  let b := if include_diversity then PrimFloat.mul b (diversity_factor load) else b in
  match time_of_day_hour, operating_schedule load with
  | Some h, _ :: _ =>
      match operating_schedule load !! Z.to_nat (h mod 24) with
      | Some f => PrimFloat.mul b f
      | None => b
      end
  | _, _ => b
  end.

(** [load.critical_load or load.load_type in [LIGHTING, ELECTRONIC]] *)
Definition is_continuous (load : LoadData) : bool :=
  critical_load load
  || LoadType_eqb (load_type load) LIGHTING
  || LoadType_eqb (load_type load) ELECTRONIC.

Definition is_motor (load : LoadData) : bool := LoadType_eqb (load_type load) MOTOR.

(** the four accumulators of the loop *)
Record Totals := {
  total_continuous : float;
  total_non_continuous : float;
  total_motor_starting : float;
  total_harmonics : list (Z * float)
}.

Definition totals0 : Totals :=
  {| total_continuous := 0; total_non_continuous := 0;
     total_motor_starting := 0; total_harmonics := [] |}.

(** one iteration of [for load in loads] *)
Definition load_step (include_diversity : bool) (hour : option Z)
    (t : Totals) (load : LoadData) : Totals :=
  let b := base_current include_diversity hour load in
  {| total_continuous :=
       if is_continuous load then PrimFloat.add (total_continuous t) b
       else total_continuous t;
     total_non_continuous :=
       if is_continuous load then total_non_continuous t
       else PrimFloat.add (total_non_continuous t) b;
     total_motor_starting :=
       if is_motor load
       then Py.max (total_motor_starting t)
                   (PrimFloat.mul b (starting_current_multiplier load))
       else total_motor_starting t;
     total_harmonics :=
       accumulate_harmonics b (harmonic_content load) (total_harmonics t) |}.

Definition calculate_load_current (loads : list LoadData)
    (include_diversity : bool) (time_of_day_hour : option Z) : LoadAnalysis :=
  let t := fold_left (load_step include_diversity time_of_day_hour) loads totals0 in
  {| continuous_current := total_continuous t;
     non_continuous_current := total_non_continuous t;
     design_current :=
       PrimFloat.add (PrimFloat.mul (total_continuous t) 1.25) (total_non_continuous t);
     motor_starting_peak := total_motor_starting t;
     harmonic_currents := total_harmonics t |}.

(** ** Derating factors *)

Definition temp_factors : list (float * float) :=
  [ (21, 1.08); (26, 1.00); (31, 0.91); (36, 0.82); (41, 0.71);
    (46, 0.58); (51, 0.41); (56, 0.00) ]%float.

(** [min(keys, key=lambda x: abs(x - t))]: a later key replaces the best
    one only when it is strictly closer *)
Definition closest_step (t : float) (best kv : float * float) : float * float :=
  if PrimFloat.ltb (PrimFloat.abs (PrimFloat.sub (fst kv) t))
                   (PrimFloat.abs (PrimFloat.sub (fst best) t))
  then kv else best.

Definition _get_temperature_correction_factor (ambient_temp_c : float) : float :=
  snd (fold_left (closest_step ambient_temp_c) (tl temp_factors) (21, 1.08)%float).

Definition _get_conduit_fill_correction_factor (num_conductors : Z)
    (fill_percent : float) : float :=
  if (num_conductors <=? 3)%Z then 1.00%float
  else if (num_conductors <=? 6)%Z then 0.80%float
  else if (num_conductors <=? 9)%Z then 0.70%float
  else if (num_conductors <=? 20)%Z then 0.50%float
  else 0.35%float.

(** ** Thermal analysis *)

Record ThermalAnalysisResult := {
  conductor_temperature_c : float;
  ampacity_derated : float;
  thermal_margin_percent : float;
  time_to_thermal_limit_minutes : float;
  cooling_required : bool
}.

Definition analyze_thermal_performance (cfg : Config) (circuit : CircuitData)
    : result ThermalAnalysisResult :=
  match get_wire_properties (wire_awg circuit) with
  | None => Raise (UnknownWireSize (wire_awg circuit))
  | Some _ =>
      let base_ampacity := get_ampacity (wire_awg circuit) 75 in
      let temp_correction :=
        _get_temperature_correction_factor (ambient_temperature_c circuit) in
      let fill_correction :=
        _get_conduit_fill_correction_factor
          (number_of_conductors circuit) (conduit_fill_percentage circuit) in
      let derated_ampacity :=
        PrimFloat.mul (PrimFloat.mul base_ampacity temp_correction) fill_correction in
      let design := design_current (calculate_load_current (loads circuit) true None) in
      current_ratio <- Py.div design derated_ampacity ;;
      ratio2 <- Py.pow2 current_ratio ;;
      let conductor_temp :=
        PrimFloat.add (ambient_temperature_c circuit)
          (PrimFloat.mul (PrimFloat.sub 75 (ambient_temperature_c circuit)) ratio2) in
      q <- Py.div (PrimFloat.sub derated_ampacity design) derated_ampacity ;;
      let thermal_margin := PrimFloat.mul q 100 in
      time_to_limit <-
        (if PrimFloat.ltb derated_ampacity design then
           overload_ratio <- Py.div design derated_ampacity ;;
           o2 <- Py.pow2 overload_ratio ;;
           inv <- Py.div 1.0 (PrimFloat.sub o2 1.0) ;;
           Ok (PrimFloat.mul inv 5.0)
         else Ok infinity) ;;
      Ok {| conductor_temperature_c := conductor_temp;
            ampacity_derated := derated_ampacity;
            thermal_margin_percent := thermal_margin;
            time_to_thermal_limit_minutes := time_to_limit;
            cooling_required :=
              PrimFloat.ltb (PrimFloat.mul derated_ampacity (thermal_safety_margin cfg))
                            design |}
  end.

(** ** Voltage drop and the upgrade ladder *)

Record VoltageDropAnalysis := {
  voltage_drop_volts : float;
  voltage_drop_percent : float;
  voltage_at_load : float;
  meets_code_requirements : bool;
  recommended_wire_upgrade : option string
}.

Definition wire_sizes : list string :=
  ["14"; "12"; "10"; "8"; "6"; "4"; "2"; "1"; "1/0"; "2/0"; "3/0"; "4/0"].

Definition consult_engineer : string := "Consult engineer - may need voltage upgrade".

(** [list.index] *)
Fixpoint list_index (x : string) (l : list string) : result nat :=
  match l with
  | [] => Raise (NotInList x)
  | y :: rest =>
      if String.eqb y x then Ok 0%nat
      else i <- list_index x rest ;; Ok (S i)
  end.

(** the drop percent of the circuit rewired with [test_wire] *)
Definition test_vd_percent (circuit : CircuitData) (design : float)
    (test_wire : WireProperties) : result float :=
  let test_resistance :=
    PrimFloat.mul
      (PrimFloat.mul (PrimFloat.div (resistance_ohm_per_kft test_wire) 1000.0)
                     (wire_length_ft circuit)) 2 in
  let test_vd := PrimFloat.mul design test_resistance in
  q <- Py.div test_vd (voltage_rating circuit) ;;
  Ok (PrimFloat.mul q 100).

(** the loop [for i in range(current_index + 1, len(wire_sizes))] *)
Fixpoint try_sizes (cfg : Config) (circuit : CircuitData) (design : float)
    (candidates : list string) : result string :=
  match candidates with
  | [] => Ok consult_engineer
  | test_size :: rest =>
      match get_wire_properties test_size with
      | Some test_wire =>
          pct <- test_vd_percent circuit design test_wire ;;
          if PrimFloat.leb pct (voltage_drop_limit_percent cfg) then Ok test_size
          else try_sizes cfg circuit design rest
      | None => try_sizes cfg circuit design rest
      end
  end.

Definition _recommend_wire_upgrade (cfg : Config) (circuit : CircuitData)
    (design : float) (current_vd_percent : float) : result string :=
  current_index <- list_index (wire_awg circuit) wire_sizes ;;
  try_sizes cfg circuit design (drop (S current_index) wire_sizes).

Definition analyze_voltage_drop (cfg : Config) (circuit : CircuitData)
    : result VoltageDropAnalysis :=
  match get_wire_properties (wire_awg circuit) with
  | None => Raise (UnknownWireSize (wire_awg circuit))
  | Some wire_props =>
      let design := design_current (calculate_load_current (loads circuit) true None) in
      let resistance_per_ft := PrimFloat.div (resistance_ohm_per_kft wire_props) 1000.0 in
      let total_resistance :=
        PrimFloat.mul (PrimFloat.mul resistance_per_ft (wire_length_ft circuit)) 2 in
      let voltage_drop := PrimFloat.mul design total_resistance in
      q <- Py.div voltage_drop (voltage_rating circuit) ;;
      let vd_percent := PrimFloat.mul q 100 in
      let at_load := PrimFloat.sub (voltage_rating circuit) voltage_drop in
      let meets_code := PrimFloat.leb vd_percent (voltage_drop_limit_percent cfg) in
      recommended_upgrade <-
        (if meets_code then Ok None
         else u <- _recommend_wire_upgrade cfg circuit design vd_percent ;; Ok (Some u)) ;;
      Ok {| voltage_drop_volts := voltage_drop;
            voltage_drop_percent := vd_percent;
            voltage_at_load := at_load;
            meets_code_requirements := meets_code;
            recommended_wire_upgrade := recommended_upgrade |}
  end.

(** ** Harmonic analysis *)

Record HarmonicAnalysis := {
  thd_voltage_percent : float;
  thd_current_percent : float;
  individual_harmonics : list (Z * float);
  k_factor_transformers : float;
  neutral_current_percent : float
}.

(** [sum(f(x) for x in xs)] where [f] may raise *)
Fixpoint sum_results {A : Type} (f : A -> result float) (xs : list A) (acc : float)
    : result float :=
  match xs with
  | [] => Ok acc
  | x :: rest => v <- f x ;; sum_results f rest (PrimFloat.add acc v)
  end.

(** one term of the k-factor sum:
    [harmonic_order**2 * (current/fundamental_current)**2] *)
Definition k_term (fundamental : float) (oc : Z * float) : result float :=
  q <- Py.div (snd oc) fundamental ;;
  q2 <- Py.pow2 q ;;
  o2 <- Py.of_int (fst oc * fst oc) ;;
  Ok (PrimFloat.mul o2 q2).

Definition is_triplen (oc : Z * float) : bool := (fst oc mod 3 =? 0)%Z.

Definition analyze_harmonic_distortion (circuit_loads : list LoadData)
    : result HarmonicAnalysis :=
  let fundamental_current :=
    fold_left (fun acc load => PrimFloat.add acc (nominal_current load)) circuit_loads 0%float in
  let currents :=
    fold_left (fun d load =>
                 accumulate_harmonics (nominal_current load) (harmonic_content load) d)
              circuit_loads [] in
  total_harmonic_power <- sum_results (fun oc => Py.pow2 (snd oc)) currents 0%float ;;
  thd_current <-
    (if PrimFloat.ltb 0 fundamental_current then
       r <- Py.sqrt total_harmonic_power ;;
       q <- Py.div r fundamental_current ;;
       Ok (PrimFloat.mul q 100)
     else Ok 0%float) ;;
  let thd_voltage := PrimFloat.mul thd_current 0.1 in
  k_sum <- sum_results (k_term fundamental_current) currents 0%float ;;
  let k_factor := PrimFloat.add 1.0 k_sum in
  let neutral_current :=
    fold_left (fun acc oc => if is_triplen oc then PrimFloat.add acc (snd oc) else acc)
              currents 0%float in
  neutral_percent <-
    (if PrimFloat.ltb 0 fundamental_current then
       q <- Py.div neutral_current fundamental_current ;;
       Ok (PrimFloat.mul q 100)
     else Ok 0%float) ;;
  Ok {| thd_voltage_percent := thd_voltage;
        thd_current_percent := thd_current;
        individual_harmonics := currents;
        k_factor_transformers := k_factor;
        neutral_current_percent := neutral_percent |}.

(** ** The analyzer state and the constraint checks *)

Record SystemConstraintCheck := {
  constraint_name : string;
  current_value : float;
  limit_value : float;
  margin_percent : float;
  passes_check : bool;
  severity_level : string;
  recommendation : string
}.

Record ElectricalSystemAnalyzer := {
  circuits : gmap string CircuitData;
  system_hierarchy : gmap string (list string);
  config : Config
}.

(** [ElectricalSystemAnalyzer()] *)
Definition new_analyzer : ElectricalSystemAnalyzer :=
  {| circuits := ∅; system_hierarchy := ∅; config := default_config |}.

Definition add_circuit (circuit : CircuitData) (self : ElectricalSystemAnalyzer)
    : ElectricalSystemAnalyzer :=
  {| circuits := <[circuit_id circuit := circuit]> (circuits self);
     system_hierarchy :=
       match parent_circuit_id circuit with
       | Some p =>
           if Py.truthy (Some p) then
             <[p := (default [] (system_hierarchy self !! p) ++ [circuit_id circuit])%list]>
               (system_hierarchy self)
           else system_hierarchy self
       | None => system_hierarchy self
       end;
     config := config self |}.

(** [l.remove(x)] inside [try: ... except ValueError: pass] *)
Fixpoint list_remove (x : string) (l : list string) : list string :=
  match l with
  | [] => []
  | y :: rest => if String.eqb y x then rest else y :: list_remove x rest
  end.

(** the [finally] block shared by [validate_system_constraints] and
    [generate_integration_report] *)
Definition release (new_circuit : CircuitData) (self : ElectricalSystemAnalyzer)
    : ElectricalSystemAnalyzer :=
  match circuits self !! circuit_id new_circuit with
  | None => self
  | Some _ =>
      {| circuits := delete (circuit_id new_circuit) (circuits self);
         system_hierarchy :=
           match parent_circuit_id new_circuit with
           | Some p =>
               match system_hierarchy self !! p with
               | Some children =>
                   <[p := list_remove (circuit_id new_circuit) children]>
                     (system_hierarchy self)
               | None => system_hierarchy self
               end
           | None => system_hierarchy self
           end;
         config := config self |}
  end.

(** the loads of all registered children of [parent_id] *)
Definition all_child_loads (self : ElectricalSystemAnalyzer) (parent_id : string)
    : list LoadData :=
  fold_left
    (fun acc child_id =>
       match circuits self !! child_id with
       | Some child_circuit => (acc ++ loads child_circuit)%list
       | None => acc
       end)
    (default [] (system_hierarchy self !! parent_id)) [].

(** the check appended after the thermal analysis of the candidate *)
Definition thermal_check (cfg : Config) (new_circuit : CircuitData)
    (thermal_result : ThermalAnalysisResult) : SystemConstraintCheck :=
  let margin_min := config_get (thermal_margin_min_percent cfg) 20.0 in
  let margin := thermal_margin_percent thermal_result in
  {| constraint_name := "Conductor Ampacity";
     current_value := ampacity_derated thermal_result;
     limit_value := design_current (calculate_load_current (loads new_circuit) true None);
     margin_percent := margin;
     passes_check := PrimFloat.ltb margin_min margin;
     severity_level :=
       if PrimFloat.ltb margin 0 then "critical"
       else if PrimFloat.ltb margin margin_min then "warning" else "info";
     recommendation :=
       if PrimFloat.ltb margin margin_min then "Increase wire size or reduce load"
       else "Adequate thermal margin" |}.

(** the check appended after the voltage-drop analysis; the margin divides
    by the limit *)
Definition voltage_check (cfg : Config) (voltage_result : VoltageDropAnalysis)
    : result SystemConstraintCheck :=
  let vlimit := config_get (Some (voltage_drop_limit_percent cfg)) 3.0 in
  q <- Py.div (PrimFloat.sub vlimit (voltage_drop_percent voltage_result)) vlimit ;;
  Ok {| constraint_name := "Voltage Drop";
        current_value := voltage_drop_percent voltage_result;
        limit_value := vlimit;
        margin_percent := PrimFloat.mul q 100;
        passes_check := meets_code_requirements voltage_result;
        severity_level :=
          if negb (meets_code_requirements voltage_result) then "critical" else "info";
        recommendation :=
          match recommended_wire_upgrade voltage_result with
          | Some u => if String.eqb u "" then "Voltage drop acceptable"
                      else "Upgrade to " +:+ u
          | None => "Voltage drop acceptable"
          end |}.

(** the check appended for a registered parent *)
Definition parent_check (cfg : Config) (parent_loading_percent : float)
    : SystemConstraintCheck :=
  let plimit := config_get (parent_loading_limit_percent cfg) 80.0 in
  {| constraint_name := "Parent Circuit Loading";
     current_value := parent_loading_percent;
     limit_value := plimit;
     margin_percent := PrimFloat.sub plimit parent_loading_percent;
     passes_check := PrimFloat.leb parent_loading_percent plimit;
     severity_level :=
       if PrimFloat.ltb 100 parent_loading_percent then "critical"
       else if PrimFloat.ltb plimit parent_loading_percent then "warning" else "info";
     recommendation :=
       if PrimFloat.ltb plimit parent_loading_percent
       then "Upgrade parent circuit or redistribute loads"
       else "Parent circuit adequate" |}.

(** the check appended after the harmonic analysis; the margin divides by
    the limit *)
Definition harmonic_check (cfg : Config) (harmonic_result : HarmonicAnalysis)
    : result SystemConstraintCheck :=
  let thd_limit := config_get (thd_current_limit_percent cfg) 20.0 in
  let thd := thd_current_percent harmonic_result in
  q <- Py.div (PrimFloat.sub thd_limit thd) thd_limit ;;
  Ok {| constraint_name := "Current THD";
        current_value := thd;
        limit_value := thd_limit;
        margin_percent := PrimFloat.mul q 100;
        passes_check := PrimFloat.leb thd thd_limit;
        severity_level := if PrimFloat.ltb thd_limit thd then "warning" else "info";
        recommendation :=
          if PrimFloat.ltb thd_limit thd then "Consider harmonic filtering"
          else "Harmonic levels acceptable" |}.

(** step 3 of the [try] body: the loading of the parent, when the parent
    id is truthy and registered *)
Definition parent_loading (self : ElectricalSystemAnalyzer) (new_circuit : CircuitData)
    : result (option float) :=
  match parent_circuit_id new_circuit with
  | Some p =>
      if Py.truthy (Some p) then
        match circuits self !! p with
        | Some parent_circuit =>
            let parent_load_analysis :=
              calculate_load_current (all_child_loads self p) true None in
            parent_thermal <- analyze_thermal_performance (config self) parent_circuit ;;
            q <- Py.div (design_current parent_load_analysis)
                        (ampacity_derated parent_thermal) ;;
            Ok (Some (PrimFloat.mul q 100))
        | None => Ok None
        end
      else Ok None
  | None => Ok None
  end.

(** the body of the [try] of [validate_system_constraints], run on the
    analyzer in which the candidate is grafted *)
Definition evaluate_constraints (self : ElectricalSystemAnalyzer)
    (new_circuit : CircuitData) : result (list SystemConstraintCheck) :=
  let cfg := config self in
  thermal_result <- analyze_thermal_performance cfg new_circuit ;;
  let c1 := thermal_check cfg new_circuit thermal_result in
  voltage_result <- analyze_voltage_drop cfg new_circuit ;;
  c2 <- voltage_check cfg voltage_result ;;
  loading <- parent_loading self new_circuit ;;
  let c3 := match loading with
            | Some pct => [parent_check cfg pct]
            | None => []
            end in
  harmonic_result <- analyze_harmonic_distortion (loads new_circuit) ;;
  c4 <- harmonic_check cfg harmonic_result ;;
  Ok ([c1; c2] ++ c3 ++ [c4])%list.

(** [validate_system_constraints]: graft, evaluate, release; the result
    is the list of checks or the exception that escapes, the analyzer is
    the one left behind in either case *)
Definition validate_system_constraints (self : ElectricalSystemAnalyzer)
    (new_circuit : CircuitData)
    : result (list SystemConstraintCheck) * ElectricalSystemAnalyzer :=
  let grafted := add_circuit new_circuit self in
  (evaluate_constraints grafted new_circuit, release new_circuit grafted).

(** ** The integration report *)

Record Modification := {
  modification_type : string;
  description : string;
  priority : string
}.

Record SystemImpactSummary := {
  affects_parent_circuit : bool;
  critical_issues_count : nat;
  warnings_count : nat;
  estimated_implementation_risk : string
}.

Record IntegrationReport := {
  report_circuit_id : string;
  analysis_timestamp : string;
  overall_status : string;
  constraint_checks : list SystemConstraintCheck;
  thermal_analysis : ThermalAnalysisResult;
  voltage_analysis : VoltageDropAnalysis;
  harmonic_analysis : HarmonicAnalysis;
  load_analysis : LoadAnalysis;
  recommendations : list string;
  required_modifications : list Modification;
  system_impact_summary : SystemImpactSummary
}.

Definition has_severity (level : string) (c : SystemConstraintCheck) : bool :=
  String.eqb (severity_level c) level.

(** [needle in hay] on strings *)
Fixpoint str_contains (needle hay : string) : bool :=
  String.prefix needle hay
  || match hay with
     | EmptyString => false
     | String _ rest => str_contains needle rest
     end.

Definition _generate_recommendations (constraints : list SystemConstraintCheck)
    : list string :=
  map (fun c => constraint_name c +:+ ": " +:+ recommendation c)
      (List.filter (fun c => negb (passes_check c)) constraints).

Definition modification_for (c : SystemConstraintCheck) : list Modification :=
  if str_contains "Conductor Ampacity" (constraint_name c) then
    [ {| modification_type := "wire_upgrade";
         description := "Increase conductor size to handle load";
         priority := "high" |} ]
  else if str_contains "Voltage Drop" (constraint_name c) then
    [ {| modification_type := "wire_upgrade_or_voltage_increase";
         description := "Reduce circuit resistance or increase supply voltage";
         priority := "high" |} ]
  else if str_contains "Parent Circuit" (constraint_name c) then
    [ {| modification_type := "panel_upgrade";
         description := "Upgrade parent circuit or redistribute loads";
         priority := "high" |} ]
  else [].

Definition _generate_required_modifications (constraints : list SystemConstraintCheck)
    : list Modification :=
  concat (map modification_for
              (List.filter (has_severity "critical") constraints)).

Definition _assess_implementation_risk (constraints : list SystemConstraintCheck)
    : string :=
  let critical_count := length (List.filter (has_severity "critical") constraints) in
  let warning_count := length (List.filter (has_severity "warning") constraints) in
  if (2 <? critical_count)%nat then "HIGH"
  else if (0 <? critical_count)%nat || (3 <? warning_count)%nat then "MEDIUM"
  else "LOW".

(** the body of the [try] of [generate_integration_report]; [timestamp] is
    the outcome of the expression [np.datetime64('now').isoformat()], which
    the analyzer does not control *)
Definition assemble_report (self : ElectricalSystemAnalyzer)
    (new_circuit : CircuitData) (constraints : list SystemConstraintCheck)
    (timestamp : result string) : result IntegrationReport :=
  let cfg := config self in
  thermal <- analyze_thermal_performance cfg new_circuit ;;
  voltage <- analyze_voltage_drop cfg new_circuit ;;
  harmonic <- analyze_harmonic_distortion (loads new_circuit) ;;
  let load := calculate_load_current (loads new_circuit) true None in
  let critical_issues := List.filter (has_severity "critical") constraints in
  let warnings := List.filter (has_severity "warning") constraints in
  let status :=
    match critical_issues, warnings with
    | _ :: _, _ => "FAIL"
    | [], _ :: _ => "PASS_WITH_WARNINGS"
    | [], [] => "PASS"
    end in
  now <- timestamp ;;
  Ok {| report_circuit_id := circuit_id new_circuit;
        analysis_timestamp := now;
        overall_status := status;
        constraint_checks := constraints;
        thermal_analysis := thermal;
        voltage_analysis := voltage;
        harmonic_analysis := harmonic;
        load_analysis := load;
        recommendations := _generate_recommendations constraints;
        required_modifications := _generate_required_modifications constraints;
        system_impact_summary :=
          {| affects_parent_circuit :=
               match parent_circuit_id new_circuit with Some _ => true | None => false end;
             critical_issues_count := length critical_issues;
             warnings_count := length warnings;
             estimated_implementation_risk := _assess_implementation_risk constraints |} |}.

Definition generate_integration_report (self : ElectricalSystemAnalyzer)
    (new_circuit : CircuitData) (timestamp : result string)
    : result IntegrationReport * ElectricalSystemAnalyzer :=
  match validate_system_constraints self new_circuit with
  | (Raise e, self1) => (Raise e, self1)
  | (Ok constraints, self1) =>
      let grafted := add_circuit new_circuit self1 in
      (assemble_report grafted new_circuit constraints timestamp,
       release new_circuit grafted)
  end.

(** ** The example of the module's [__main__] block *)

Definition example_protection : ProtectionDevice := {|
  device_id := "CB-101"; protection_type := BREAKER;
  current_rating := 20.0; device_voltage_rating := 120.0;
  interrupting_rating := 10000.0; trip_curve_type := "C";
  instantaneous_trip_multiplier := 10.0;
  time_delay_characteristics := [("thermal", 60.0%float); ("magnetic", 0.5%float)] |}.

Definition example_load : LoadData := {|
  load_id := "HVAC-1"; load_type := HVAC;
  nominal_voltage := 120.0; nominal_current := 15.0; nominal_power := 1800.0;
  power_factor := 0.85; starting_current_multiplier := 3.0;
  diversity_factor := 0.8; critical_load := true;
  harmonic_content := [(3%Z, 0.1%float); (5%Z, 0.05%float)];
  operating_schedule := repeat 0.5%float 24 |}.

Definition example_circuit : CircuitData := {|
  circuit_id := "BRANCH-201"; circuit_type := BRANCH;
  wire_awg := "12"; wire_length_ft := 100.0;
  conduit_fill_percentage := 40.0; ambient_temperature_c := 30.0;
  number_of_conductors := 3; voltage_rating := 120.0;
  loads := [example_load]; protection_device := example_protection;
  parent_circuit_id := None |}.


(** ** Concrete circuits used by the examples below *)

Module Scenario.

Definition with_parent (parent : option string) (c : CircuitData) : CircuitData := {|
  circuit_id := circuit_id c; circuit_type := circuit_type c;
  wire_awg := wire_awg c; wire_length_ft := wire_length_ft c;
  conduit_fill_percentage := conduit_fill_percentage c;
  ambient_temperature_c := ambient_temperature_c c;
  number_of_conductors := number_of_conductors c;
  voltage_rating := voltage_rating c; loads := loads c;
  protection_device := protection_device c;
  parent_circuit_id := parent |}.

Definition with_wire (awg : string) (c : CircuitData) : CircuitData := {|
  circuit_id := circuit_id c; circuit_type := circuit_type c;
  wire_awg := awg; wire_length_ft := wire_length_ft c;
  conduit_fill_percentage := conduit_fill_percentage c;
  ambient_temperature_c := ambient_temperature_c c;
  number_of_conductors := number_of_conductors c;
  voltage_rating := voltage_rating c; loads := loads c;
  protection_device := protection_device c;
  parent_circuit_id := parent_circuit_id c |}.

Definition with_ambient (t : float) (c : CircuitData) : CircuitData := {|
  circuit_id := circuit_id c; circuit_type := circuit_type c;
  wire_awg := wire_awg c; wire_length_ft := wire_length_ft c;
  conduit_fill_percentage := conduit_fill_percentage c;
  ambient_temperature_c := t;
  number_of_conductors := number_of_conductors c;
  voltage_rating := voltage_rating c; loads := loads c;
  protection_device := protection_device c;
  parent_circuit_id := parent_circuit_id c |}.

(** a resistive load without harmonics *)
Definition plain_load (name : string) (amps : float) : LoadData := {|
  load_id := name; load_type := RESISTIVE;
  nominal_voltage := 120.0; nominal_current := amps;
  nominal_power := PrimFloat.mul 120.0 amps;
  power_factor := 1.0; starting_current_multiplier := 1.0;
  diversity_factor := 1.0; critical_load := false;
  harmonic_content := []; operating_schedule := [] |}.

Definition motor_load (name : string) (amps mult : float) : LoadData := {|
  load_id := name; load_type := MOTOR;
  nominal_voltage := 120.0; nominal_current := amps;
  nominal_power := PrimFloat.mul 120.0 amps;
  power_factor := 0.8; starting_current_multiplier := mult;
  diversity_factor := 1.0; critical_load := false;
  harmonic_content := []; operating_schedule := [] |}.

Definition circuit (cid awg : string) (len : float) (parent : option string)
    (ls : list LoadData) : CircuitData := {|
  circuit_id := cid; circuit_type := BRANCH;
  wire_awg := awg; wire_length_ft := len;
  conduit_fill_percentage := 40.0; ambient_temperature_c := 30.0;
  number_of_conductors := 3; voltage_rating := 120.0;
  loads := ls; protection_device := example_protection;
  parent_circuit_id := parent |}.

(** a feeder and one branch persisted under it *)
Definition panel : CircuitData := circuit "PANEL-A" "2" 50.0 None [].
Definition persisted_branch : CircuitData :=
  circuit "BRANCH-201" "12" 20.0 (Some "PANEL-A") [plain_load "L0" 5.0].
Definition panel_with_branch : ElectricalSystemAnalyzer :=
  add_circuit persisted_branch (add_circuit panel new_analyzer).

(** the example circuit, to be attached under the feeder with the id of
    the persisted branch *)
Definition colliding_candidate : CircuitData :=
  with_parent (Some "PANEL-A") example_circuit.

(** an electronic load whose third harmonic is half of the fundamental *)
Definition distorting_load : LoadData := {|
  load_id := "UPS-1"; load_type := ELECTRONIC;
  nominal_voltage := 120.0; nominal_current := 5.0; nominal_power := 600.0;
  power_factor := 0.9; starting_current_multiplier := 1.0;
  diversity_factor := 1.0; critical_load := false;
  harmonic_content := [(3%Z, 0.5%float)]; operating_schedule := [] |}.
Definition distorting_circuit : CircuitData :=
  circuit "BRANCH-301" "12" 20.0 None [distorting_load].

(** a load that draws no current but declares a harmonic profile *)
Definition idle_load : LoadData := {|
  load_id := "SPARE-1"; load_type := ELECTRONIC;
  nominal_voltage := 120.0; nominal_current := 0.0; nominal_power := 0.0;
  power_factor := 1.0; starting_current_multiplier := 1.0;
  diversity_factor := 1.0; critical_load := false;
  harmonic_content := [(3%Z, 0.1%float)]; operating_schedule := [] |}.

(** the example circuit in a 56 degree ambient *)
Definition hot_circuit : CircuitData := with_ambient 56.0 example_circuit.

(** a long 250 kcmil run and a long 4/0 run *)
Definition kcmil_run : CircuitData :=
  circuit "FEEDER-250" "250" 1000.0 None [plain_load "L1" 100.0].
Definition four_ought_run : CircuitData := {|
  circuit_id := "FEEDER-4/0"; circuit_type := FEEDER;
  wire_awg := "4/0"; wire_length_ft := 500.0;
  conduit_fill_percentage := 40.0; ambient_temperature_c := 30.0;
  number_of_conductors := 3; voltage_rating := 240.0;
  loads := [plain_load "L2" 200.0]; protection_device := example_protection;
  parent_circuit_id := None |}.

(** a candidate under the feeder whose conductor size is not cataloged *)
Definition heavy_branch : CircuitData :=
  circuit "BRANCH-401" "12" 20.0 (Some "PANEL-A") [plain_load "L3" 150.0].
Definition uncataloged_branch : CircuitData := with_wire "13" heavy_branch.

(** a second branch persisted under the feeder, and a candidate that
    reuses the id of the first one *)
Definition second_branch : CircuitData :=
  circuit "BRANCH-202" "12" 20.0 (Some "PANEL-A") [plain_load "L4" 12.1].
Definition panel_with_two_branches : ElectricalSystemAnalyzer :=
  add_circuit second_branch panel_with_branch.
Definition replacement_branch : CircuitData :=
  circuit "BRANCH-201" "12" 20.0 (Some "PANEL-A")
          [plain_load "L5" 0.1; plain_load "L6" 0.2].

(** the default thresholds with the parent-loading limit raised to 150 *)
Definition lenient_config : Config := {|
  voltage_drop_limit_percent := 3.0;
  temperature_derating_enabled := true;
  harmonic_analysis_enabled := true;
  fault_current_safety_margin := 0.8;
  thermal_safety_margin := 0.75;
  parent_loading_limit_percent := Some 150.0%float;
  thd_current_limit_percent := Some 20.0%float;
  thermal_margin_min_percent := Some 20.0%float |}.
Definition lenient_panel : ElectricalSystemAnalyzer := {|
  circuits := circuits panel_with_branch;
  system_hierarchy := system_hierarchy panel_with_branch;
  config := lenient_config |}.

End Scenario.


(** ** Vocabulary of the properties *)

(** the three ampacity columns of a wire are ordered *)
Definition tiers_monotone (w : WireProperties) : bool :=
  PrimFloat.leb (ampacity_60c w) (ampacity_75c w)
  && PrimFloat.leb (ampacity_75c w) (ampacity_90c w).

(** [x] occurs in no child list of the index *)
Definition unlisted (x : string) (h : gmap string (list string)) : Prop :=
  forall p l, h !! p = Some l -> x ∉ l.

(** the value [derated_ampacity] of [analyze_thermal_performance] *)
Definition derated_ampacity_of (circuit : CircuitData) : float :=
  PrimFloat.mul
    (PrimFloat.mul (get_ampacity (wire_awg circuit) 75)
                   (_get_temperature_correction_factor (ambient_temperature_c circuit)))
    (_get_conduit_fill_correction_factor
       (number_of_conductors circuit) (conduit_fill_percentage circuit)).

(** the policy in the words of the specification: the margin of the check
    against zero and against the configured minimum margin *)
Definition uniform_severity (cfg : Config) (chk : SystemConstraintCheck) : string :=
  if PrimFloat.ltb (margin_percent chk) 0 then "critical"
  else if PrimFloat.ltb (margin_percent chk)
                        (config_get (thermal_margin_min_percent cfg) 20.0)
       then "warning" else "info".

(** the policies of the four checks, read off the fields of a check *)
Definition check_severity (cfg : Config) (chk : SystemConstraintCheck) : string :=
  if String.eqb (constraint_name chk) "Conductor Ampacity" then uniform_severity cfg chk
  else if String.eqb (constraint_name chk) "Voltage Drop" then
    if PrimFloat.leb (current_value chk) (limit_value chk) then "info" else "critical"
  else if String.eqb (constraint_name chk) "Parent Circuit Loading" then
    if PrimFloat.ltb 100 (current_value chk) then "critical"
    else if PrimFloat.ltb (limit_value chk) (current_value chk) then "warning"
    else "info"
  else
    if PrimFloat.ltb (limit_value chk) (current_value chk) then "warning" else "info".

Definition check_names : list string :=
  ["Conductor Ampacity"; "Voltage Drop"; "Parent Circuit Loading"; "Current THD"].

(** the aggregates in the words of the specification *)
Definition float_sum (xs : list float) : float := fold_left PrimFloat.add xs 0%float.
Definition float_peak (xs : list float) : float := fold_left Py.max xs 0%float.
Definition starting_current (include_diversity : bool) (hour : option Z)
    (load : LoadData) : float :=
  PrimFloat.mul (base_current include_diversity hour load)
                (starting_current_multiplier load).

(** [size] does not bring the drop within the limit *)
Definition still_over (cfg : Config) (c : CircuitData) (design : float)
    (size : string) : Prop :=
  forall w pct, get_wire_properties size = Some w ->
                test_vd_percent c design w = Ok pct ->
                PrimFloat.leb pct (voltage_drop_limit_percent cfg) = false.

(** ** Fault current analysis *)

Record FaultCurrentAnalysis := {
  available_fault_current : float;
  x_over_r_ratio : float;
  arc_fault_current : float;
  protection_coordination_margin : float;
  fault_clearing_time_cycles : float
}.

(** the outcome of an operation that first looks a circuit up by id:
    [NotRegistered] is the [ValueError("Circuit not found: ...")] *)
Inductive lookup_result (A : Type) : Type :=
  | Found (r : result A)
  | NotRegistered (cid : string).
Arguments Found {A} r.
Arguments NotRegistered {A} cid.

Definition analyze_fault_current (self : ElectricalSystemAnalyzer) (cid : string)
    (upstream_fault_current : float) (transformer_impedance : float)
    : lookup_result FaultCurrentAnalysis :=
  match circuits self !! cid with
  | None => NotRegistered cid
  | Some circuit =>
      Found
        match get_wire_properties (wire_awg circuit) with
        | None => Raise (UnknownWireSize (wire_awg circuit))
        | Some wire_props =>
            let resistance_ohm :=
              PrimFloat.mul (PrimFloat.div (resistance_ohm_per_kft wire_props) 1000.0)
                            (wire_length_ft circuit) in
            let reactance_ohm :=
              PrimFloat.mul (PrimFloat.div 0.1 1000.0) (wire_length_ft circuit) in
            r2 <- Py.pow2 resistance_ohm ;;
            x2 <- Py.pow2 reactance_ohm ;;
            circuit_impedance <- Py.sqrt (PrimFloat.add r2 x2) ;;
            let system_voltage := voltage_rating circuit in
            let total_impedance := PrimFloat.add transformer_impedance circuit_impedance in
            root3 <- Py.sqrt 3 ;;
            available <- Py.div system_voltage (PrimFloat.mul total_impedance root3) ;;
            x_over_r <- Py.div reactance_ohm (PrimFloat.add resistance_ohm 1e-6) ;;
            let arc := PrimFloat.mul available 0.38 in
            let device_rating := interrupting_rating (protection_device circuit) in
            coordination_margin <-
              Py.div (PrimFloat.sub device_rating available) device_rating ;;
            let fault_clearing_cycles :=
              if PrimFloat.ltb
                   (PrimFloat.mul (current_rating (protection_device circuit)) 10)
                   available
              then 0.5%float else 3.0%float in
            Ok {| available_fault_current := available;
                  x_over_r_ratio := x_over_r;
                  arc_fault_current := arc;
                  protection_coordination_margin := coordination_margin;
                  fault_clearing_time_cycles := fault_clearing_cycles |}
        end
  end.

(** ** A caller that only validates and reports

    The request layer keeps one analyzer for all requests and calls
    [generate_integration_report] on it; it never calls [add_circuit]. *)

Inductive request : Type :=
  | ValidateRequest (c : CircuitData)
  | ReportRequest (c : CircuitData) (timestamp : result string).

Definition serve (self : ElectricalSystemAnalyzer) (r : request)
    : ElectricalSystemAnalyzer :=
  match r with
  | ValidateRequest c => snd (validate_system_constraints self c)
  | ReportRequest c timestamp => snd (generate_integration_report self c timestamp)
  end.

Definition serve_all (rs : list request) (self : ElectricalSystemAnalyzer)
    : ElectricalSystemAnalyzer :=
  fold_left serve rs self.

(** ** Vocabulary of the further properties *)

(** the condition of step 3 of the evaluation, on the analyzer before the
    graft: the parent id is non-empty and registered once the candidate is
    grafted *)
Definition parent_evaluated (self : ElectricalSystemAnalyzer) (c : CircuitData) : bool :=
  match parent_circuit_id c with
  | Some p =>
      Py.truthy (Some p)
      && match circuits (add_circuit c self) !! p with
         | Some _ => true
         | None => false
         end
  | None => false
  end.

(** no circuit registered and no child listed *)
Definition nothing_persisted (self : ElectricalSystemAnalyzer) : Prop :=
  circuits self = ∅ /\
  forall p l, system_hierarchy self !! p = Some l -> l = [].

(** the keys of an insertion-ordered dictionary *)
Definition keys (d : list (Z * float)) : list Z := map fst d.

(** all loads declare an empty harmonic content *)
Definition no_harmonics (ls : list LoadData) : Prop :=
  Forall (fun l => harmonic_content l = []) ls.

(** two loads agree on the fields that the demand and the harmonics are
    computed from *)
Definition same_demand (a b : LoadData) : Prop :=
  nominal_current a = nominal_current b /\
  diversity_factor a = diversity_factor b /\
  critical_load a = critical_load b /\
  load_type a = load_type b /\
  harmonic_content a = harmonic_content b.

(** two circuits agree on everything but the type, the conduit fill
    percentage and the protection device *)
Definition same_conductor (a b : CircuitData) : Prop :=
  circuit_id a = circuit_id b /\
  wire_awg a = wire_awg b /\
  wire_length_ft a = wire_length_ft b /\
  ambient_temperature_c a = ambient_temperature_c b /\
  number_of_conductors a = number_of_conductors b /\
  voltage_rating a = voltage_rating b /\
  loads a = loads b /\
  parent_circuit_id a = parent_circuit_id b.

(** the circuit with other loads *)
Definition with_loads (ls : list LoadData) (c : CircuitData) : CircuitData := {|
  circuit_id := circuit_id c; circuit_type := circuit_type c;
  wire_awg := wire_awg c; wire_length_ft := wire_length_ft c;
  conduit_fill_percentage := conduit_fill_percentage c;
  ambient_temperature_c := ambient_temperature_c c;
  number_of_conductors := number_of_conductors c;
  voltage_rating := voltage_rating c; loads := ls;
  protection_device := protection_device c;
  parent_circuit_id := parent_circuit_id c |}.

(** * Properties *)

(** the scenario of the module's example: a design current of 15 A on a
    conductor derated to 22.75 A, a thermal margin of about 34 percent *)
Example example_thermal_margin :
  design_current (calculate_load_current (loads example_circuit) true None) = 15%float /\
  exists r, analyze_thermal_performance default_config example_circuit = Ok r /\
            ampacity_derated r = 22.75%float /\
            thermal_margin_percent r = 34.065934065934066%float.
Proof.
  split; [vm_compute; reflexivity|].
  eexists. split; [vm_compute; reflexivity|]. split; reflexivity.
Qed.

Example of_int_nine : Py.of_int 9 = Ok 9%float.
Proof. vm_compute. reflexivity. Qed.

Lemma rbind_Ok {A B : Type} (r : result A) (k : A -> result B) (b : B) :
  rbind r k = Ok b -> exists a, r = Ok a /\ k a = Ok b.
Proof. destruct r as [a|e]; simpl; [eauto | discriminate]. Qed.


(** ** The order of binary64 numbers

    Comparisons of primitive floats are specified on [spec_float]; the
    facts below are the ones the analyses need.  A float is comparable
    (not a NaN) exactly when it is below or equal to itself. *)

Module FloatOrder.

Lemma SFleb_trans a b c :
  SFleb a b = true -> SFleb b c = true -> SFleb a c = true.
Proof.
  unfold SFleb, SFcompare.
  destruct a as [sa|sa| |sa ma ea], b as [sb|sb| |sb mb eb], c as [sc|sc| |sc mc ec];
    try destruct sa; try destruct sb; try destruct sc; simpl; try congruence;
    fold (Pos.compare ma mb); fold (Pos.compare mb mc); fold (Pos.compare ma mc);
    destruct (Z.compare_spec ea eb), (Z.compare_spec eb ec), (Z.compare_spec ea ec);
    try lia; try congruence; subst;
    destruct (Pos.compare_spec ma mb), (Pos.compare_spec mb mc), (Pos.compare_spec ma mc);
    simpl; try lia; try congruence.
Qed.

Lemma SFltb_SFleb_false a b : SFltb a b = true -> SFleb b a = false.
Proof.
  unfold SFltb, SFleb, SFcompare.
  destruct a as [sa|sa| |sa ma ea], b as [sb|sb| |sb mb eb];
    try destruct sa; try destruct sb; simpl; try congruence;
    fold (Pos.compare ma mb); fold (Pos.compare mb ma);
    rewrite (Z.compare_antisym ea eb); destruct (Z.compare_spec ea eb);
    simpl; try congruence;
    rewrite (Pos.compare_antisym ma mb); destruct (Pos.compare_spec ma mb);
    simpl; congruence.
Qed.

Lemma SFleb_total a b :
  SFleb a a = true -> SFleb b b = true -> SFltb a b = false -> SFleb b a = true.
Proof.
  unfold SFltb, SFleb, SFcompare.
  destruct a as [sa|sa| |sa ma ea], b as [sb|sb| |sb mb eb];
    try destruct sa; try destruct sb; simpl; try congruence; intros _ _;
    fold (Pos.compare ma mb); fold (Pos.compare mb ma);
    rewrite (Z.compare_antisym ea eb); destruct (Z.compare_spec ea eb);
    simpl; try congruence;
    rewrite (Pos.compare_antisym ma mb); destruct (Pos.compare_spec ma mb);
    simpl; congruence.
Qed.

Lemma SFltb_comparable a b :
  SFltb a b = true -> SFleb a a = true /\ SFleb b b = true.
Proof.
  unfold SFltb, SFleb, SFcompare.
  destruct a as [sa|sa| |sa ma ea], b as [sb|sb| |sb mb eb];
    try destruct sa; try destruct sb; simpl; try congruence; intros _;
    rewrite ?Z.compare_refl, ?Pos.compare_cont_refl; auto.
Qed.

Lemma SFleb_comparable a b :
  SFleb a b = true -> SFleb a a = true /\ SFleb b b = true.
Proof.
  unfold SFleb, SFcompare.
  destruct a as [sa|sa| |sa ma ea], b as [sb|sb| |sb mb eb];
    try destruct sa; try destruct sb; simpl; try congruence; intros _;
    rewrite ?Z.compare_refl, ?Pos.compare_cont_refl; auto.
Qed.

Lemma SFleb_antisym a b :
  SFleb a b = true -> SFleb b a = true -> SFeqb a b = true.
Proof.
  unfold SFleb, SFeqb, SFcompare.
  destruct a as [sa|sa| |sa ma ea], b as [sb|sb| |sb mb eb];
    try destruct sa; try destruct sb; simpl; try congruence;
    fold (Pos.compare ma mb); fold (Pos.compare mb ma);
    rewrite (Z.compare_antisym ea eb); destruct (Z.compare_spec ea eb);
    simpl; try congruence;
    rewrite (Pos.compare_antisym ma mb); destruct (Pos.compare_spec ma mb);
    simpl; congruence.
Qed.

Lemma leb_comparable (a b : float) :
  PrimFloat.leb a b = true -> PrimFloat.leb a a = true /\ PrimFloat.leb b b = true.
Proof. rewrite !leb_spec. apply SFleb_comparable. Qed.

Lemma leb_antisym (a b : float) :
  PrimFloat.leb a b = true -> PrimFloat.leb b a = true -> PrimFloat.eqb a b = true.
Proof. rewrite !leb_spec, FloatAxioms.eqb_spec. apply SFleb_antisym. Qed.

Lemma leb_trans (a b c : float) :
  PrimFloat.leb a b = true -> PrimFloat.leb b c = true -> PrimFloat.leb a c = true.
Proof. rewrite !leb_spec. apply SFleb_trans. Qed.

Lemma ltb_leb_false (a b : float) :
  PrimFloat.ltb a b = true -> PrimFloat.leb b a = false.
Proof. rewrite ltb_spec, leb_spec. apply SFltb_SFleb_false. Qed.

Lemma leb_total (a b : float) :
  PrimFloat.leb a a = true -> PrimFloat.leb b b = true ->
  PrimFloat.ltb a b = false -> PrimFloat.leb b a = true.
Proof. rewrite ltb_spec, !leb_spec. apply SFleb_total. Qed.

Lemma ltb_comparable (a b : float) :
  PrimFloat.ltb a b = true -> PrimFloat.leb a a = true /\ PrimFloat.leb b b = true.
Proof. rewrite ltb_spec, !leb_spec. apply SFltb_comparable. Qed.

(** above 100 is above every limit that is at most 100 *)
Lemma above_100_above_limit (x limit : float) :
  PrimFloat.ltb 100 x = true -> PrimFloat.leb limit 100 = true ->
  PrimFloat.leb x limit = false.
Proof.
  intros Hx Hl. destruct (PrimFloat.leb x limit) eqn:E; [|reflexivity].
  pose proof (leb_trans _ _ _ E Hl) as H.
  rewrite (ltb_leb_false _ _ Hx) in H. discriminate.
Qed.

Lemma ltb_false_of_leb (a b : float) :
  PrimFloat.leb b a = true -> PrimFloat.ltb a b = false.
Proof.
  intros H. destruct (PrimFloat.ltb a b) eqn:E; [|reflexivity].
  rewrite (ltb_leb_false _ _ E) in H. discriminate.
Qed.

End FloatOrder.

(** ** The wire table (C9) *)

Lemma assoc_In {V : Type} (k : string) (d : list (string * V)) (v : V) :
  assoc k d = Some v -> In (k, v) d.
Proof.
  induction d as [|[k' v'] rest IH]; simpl; [discriminate|].
  destruct (String.eqb_spec k k') as [->|Hne].
  - intros [= ->]. now left.
  - intros H. right. auto.
Qed.

Lemma WIRE_DATA_monotone : forallb (fun kv => tiers_monotone (snd kv)) WIRE_DATA = true.
Proof. vm_compute. reflexivity. Qed.

(** C9. [get_ampacity] returns the 60 degree column for a rating of at
    most 60, the 75 degree column for a rating above 60 and at most 75, and
    the 90 degree column above 75; for every size of the table the three
    columns are ordered: ampacity at 60 is at most ampacity at 75, which is
    at most ampacity at 90. *)
Theorem get_ampacity_tiers (size : string) (w : WireProperties) (rating : Z) :
  get_wire_properties size = Some w ->
  ((rating <= 60)%Z -> get_ampacity size rating = ampacity_60c w) /\
  ((60 < rating <= 75)%Z -> get_ampacity size rating = ampacity_75c w) /\
  ((75 < rating)%Z -> get_ampacity size rating = ampacity_90c w) /\
  PrimFloat.leb (get_ampacity size 60) (get_ampacity size 75) = true /\
  PrimFloat.leb (get_ampacity size 75) (get_ampacity size 90) = true.
Proof.
  intros Hw. unfold get_ampacity. rewrite Hw.
  repeat split.
  - intros H. apply Z.leb_le in H. now rewrite H.
  - intros [H1 H2]. apply Z.leb_gt in H1. apply Z.leb_le in H2. now rewrite H1, H2.
  - intros H. assert (H' : (60 < rating)%Z) by lia.
    apply Z.leb_gt in H, H'. now rewrite H, H'.
  - apply assoc_In in Hw.
    pose proof (proj1 (forallb_forall _ _) WIRE_DATA_monotone _ Hw) as M.
    apply andb_prop in M. apply M.
  - apply assoc_In in Hw.
    pose proof (proj1 (forallb_forall _ _) WIRE_DATA_monotone _ Hw) as M.
    apply andb_prop in M. apply M.
Qed.

Lemma get_ampacity_tiers_witness :
  get_ampacity "12" 60 = 20%float /\
  get_ampacity "12" 70 = 25%float /\
  get_ampacity "12" 90 = 30%float /\
  PrimFloat.leb (get_ampacity "12" 60) (get_ampacity "12" 75) = true.
Proof.
  assert (Hw : get_wire_properties "12"
               = Some (snd (wire "12" 80.8 6530 1.93 20 25 30)%float))
    by reflexivity.
  destruct (get_ampacity_tiers "12" _ 60 Hw) as (H60 & _ & _ & Hle & _).
  destruct (get_ampacity_tiers "12" _ 70 Hw) as (_ & H75 & _).
  destruct (get_ampacity_tiers "12" _ 90 Hw) as (_ & _ & H90 & _).
  split; [apply H60; lia|].
  split; [apply H75; lia|].
  split; [apply H90; lia|].
  exact Hle.
Defined.

(** ** Graft and release on the registry and the hierarchy index *)

Section GraftRelease.

Variable self : ElectricalSystemAnalyzer.
Variable c : CircuitData.

Lemma grafted_lookup : circuits (add_circuit c self) !! circuit_id c = Some c.
Proof. simpl. apply lookup_insert_eq. Qed.

(** the registry after graft and release: the entry of the candidate's id
    is gone, whatever it was *)
Lemma release_graft_circuits :
  circuits (release c (add_circuit c self)) = delete (circuit_id c) (circuits self).
Proof.
  unfold release. rewrite grafted_lookup. simpl. apply delete_insert_eq.
Qed.

Lemma release_config : config (release c self) = config self.
Proof. unfold release. destruct (circuits self !! circuit_id c); reflexivity. Qed.

End GraftRelease.

Lemma list_remove_fresh (x : string) (l : list string) :
  x ∉ l -> list_remove x l = l.
Proof.
  induction l as [|y rest IH]; simpl; [reflexivity|].
  intros H. apply not_elem_of_cons in H as [Hne Hrest].
  destruct (String.eqb_spec y x) as [->|_]; [congruence|].
  now rewrite IH.
Qed.

Lemma list_remove_app_fresh (x : string) (l : list string) :
  x ∉ l -> list_remove x (l ++ [x])%list = l.
Proof.
  induction l as [|y rest IH]; simpl.
  - intros _. now rewrite String.eqb_refl.
  - intros H. apply not_elem_of_cons in H as [Hne Hrest].
    destruct (String.eqb_spec y x) as [->|_]; [congruence|].
    now rewrite IH.
Qed.

(** graft and release leave an index in which the candidate was not
    listed free of it *)
Lemma release_graft_unlisted (self : ElectricalSystemAnalyzer) (c : CircuitData) :
  unlisted (circuit_id c) (system_hierarchy self) ->
  unlisted (circuit_id c) (system_hierarchy (release c (add_circuit c self))).
Proof.
  intros Hfresh. unfold release. rewrite grafted_lookup.
  unfold add_circuit; simpl.
  destruct (parent_circuit_id c) as [p0|]; [|exact Hfresh].
  destruct (negb (String.eqb p0 "")).
  - rewrite lookup_insert_eq, insert_insert_eq.
    assert (Hl0 : circuit_id c ∉ default [] (system_hierarchy self !! p0)).
    { destruct (system_hierarchy self !! p0) as [l0|] eqn:E; simpl.
      - eapply Hfresh; eauto.
      - apply not_elem_of_nil. }
    rewrite (list_remove_app_fresh _ _ Hl0).
    intros p l. destruct (decide (p0 = p)) as [->|Hne].
    + rewrite lookup_insert_eq. intros [= <-]. exact Hl0.
    + rewrite lookup_insert_ne by exact Hne. apply Hfresh.
  - destruct (system_hierarchy self !! p0) as [l0|] eqn:E; [|exact Hfresh].
    rewrite (list_remove_fresh _ _ (Hfresh _ _ E)).
    rewrite (insert_id _ _ _ E). exact Hfresh.
Qed.

(** when the candidate is not yet listed under its parent, a second graft
    after the release rebuilds the analyzer of the first graft *)
Lemma regraft (self : ElectricalSystemAnalyzer) (c : CircuitData) :
  (forall p l, parent_circuit_id c = Some p ->
               system_hierarchy self !! p = Some l -> circuit_id c ∉ l) ->
  add_circuit c (release c (add_circuit c self)) = add_circuit c self.
Proof.
  intros Hfresh.
  unfold add_circuit at 1.
  rewrite release_graft_circuits, release_config.
  unfold release. rewrite grafted_lookup. unfold add_circuit; simpl.
  f_equal.
  - rewrite insert_delete_eq. reflexivity.
  - destruct (parent_circuit_id c) as [p0|]; [|reflexivity].
    destruct (negb (String.eqb p0 "")).
    + rewrite lookup_insert_eq, insert_insert_eq, lookup_insert_eq, insert_insert_eq.
      assert (Hl0 : circuit_id c ∉ default [] (system_hierarchy self !! p0)).
      { destruct (system_hierarchy self !! p0) as [l0|] eqn:E; simpl.
        - eapply Hfresh; eauto.
        - apply not_elem_of_nil. }
      rewrite (list_remove_app_fresh _ _ Hl0). reflexivity.
    + destruct (system_hierarchy self !! p0) as [l0|] eqn:E; [|reflexivity].
      rewrite (list_remove_fresh _ _ (Hfresh _ _ eq_refl E)).
      apply insert_id. exact E.
Qed.

(** ** No persistence leakage (C1) *)

Lemma report_state (self : ElectricalSystemAnalyzer) (c : CircuitData)
    (timestamp : result string) :
  let validated := release c (add_circuit c self) in
  snd (generate_integration_report self c timestamp) = validated \/
  snd (generate_integration_report self c timestamp)
    = release c (add_circuit c validated).
Proof.
  unfold generate_integration_report, validate_system_constraints.
  destruct (evaluate_constraints (add_circuit c self) c); simpl; auto.
Qed.

(** C1 (amended). After [validate_system_constraints] or
    [generate_integration_report], whether they return or raise, the
    candidate's id is absent from [circuits]; it is absent from every child
    list of the hierarchy index provided no child list held it before the
    call. *)
Theorem release_on_every_exit (self : ElectricalSystemAnalyzer) (c : CircuitData)
    (timestamp : result string) :
  let after_validate := snd (validate_system_constraints self c) in
  let after_report := snd (generate_integration_report self c timestamp) in
  circuits after_validate !! circuit_id c = None /\
  circuits after_report !! circuit_id c = None /\
  (unlisted (circuit_id c) (system_hierarchy self) ->
   unlisted (circuit_id c) (system_hierarchy after_validate) /\
   unlisted (circuit_id c) (system_hierarchy after_report)).
Proof.
  simpl.
  assert (Hv : circuits (release c (add_circuit c self)) !! circuit_id c = None).
  { rewrite release_graft_circuits. apply lookup_delete_eq. }
  split; [exact Hv|].
  destruct (report_state self c timestamp) as [E|E]; rewrite E; clear E.
  - split; [exact Hv|]. intros Hfresh.
    split; apply release_graft_unlisted; exact Hfresh.
  - split.
    + rewrite release_graft_circuits. apply lookup_delete_eq.
    + intros Hfresh. split.
      * apply release_graft_unlisted; exact Hfresh.
      * apply release_graft_unlisted, release_graft_unlisted; exact Hfresh.
Qed.

(** the amended statement at a candidate whose conductor size is unknown:
    both entry points raise, and nothing of the candidate stays behind *)
Lemma release_on_every_exit_witness :
  fst (validate_system_constraints new_analyzer Scenario.uncataloged_branch)
    = Raise (UnknownWireSize "13") /\
  unlisted "BRANCH-401"
    (system_hierarchy
       (snd (validate_system_constraints new_analyzer Scenario.uncataloged_branch))) /\
  unlisted "BRANCH-401"
    (system_hierarchy
       (snd (generate_integration_report new_analyzer Scenario.uncataloged_branch
               (Ok "2026-01-01T00:00:00")))).
Proof.
  split; [vm_compute; reflexivity|].
  apply (release_on_every_exit new_analyzer Scenario.uncataloged_branch
           (Ok "2026-01-01T00:00:00")).
  intros p l H. simpl in H. rewrite lookup_empty in H. discriminate.
Defined.

(** C1 as stated fails when the id is already listed under the parent: the
    release removes one occurrence, the other one stays in the index. *)
Lemma release_leaves_listed_id :
  circuit_id Scenario.colliding_candidate = "BRANCH-201" /\
  system_hierarchy
    (snd (validate_system_constraints Scenario.panel_with_branch
            Scenario.colliding_candidate)) !! "PANEL-A"
  = Some ["BRANCH-201"].
Proof. split; vm_compute; reflexivity. Qed.

(** ** The effect of validation on the registry (C10) *)

(** C10. If the candidate's id names a persisted circuit, that circuit is
    no longer registered after [validate_system_constraints]; if the id is
    not registered, the registry after the call is the registry before. *)
Theorem validate_registry_effect (self : ElectricalSystemAnalyzer) (c : CircuitData) :
  let after := snd (validate_system_constraints self c) in
  (forall persisted, circuits self !! circuit_id c = Some persisted ->
                     circuits after !! circuit_id c = None) /\
  (circuits self !! circuit_id c = None -> circuits after = circuits self).
Proof.
  simpl. rewrite release_graft_circuits. split.
  - intros _ _. apply lookup_delete_eq.
  - intros H. apply delete_id. exact H.
Qed.

Lemma validate_registry_effect_witness :
  circuits Scenario.panel_with_branch !! "BRANCH-201" = Some Scenario.persisted_branch /\
  circuits (snd (validate_system_constraints Scenario.panel_with_branch
                   Scenario.colliding_candidate)) !! "BRANCH-201" = None /\
  circuits (snd (validate_system_constraints new_analyzer example_circuit))
    = circuits new_analyzer.
Proof.
  assert (H : circuits Scenario.panel_with_branch !! "BRANCH-201"
              = Some Scenario.persisted_branch) by (vm_compute; reflexivity).
  split; [exact H|]. split.
  - exact (proj1 (validate_registry_effect Scenario.panel_with_branch
                    Scenario.colliding_candidate) _ H).
  - apply (proj2 (validate_registry_effect new_analyzer example_circuit)).
    vm_compute. reflexivity.
Defined.

(** ** Repeating a validation (C6) *)

(** C6 (amended). When the candidate's id is not already listed among the
    children of its parent, validating the same candidate twice in
    succession gives the same outcome both times: the same list of checks,
    or the same exception. *)
Theorem validate_twice (self : ElectricalSystemAnalyzer) (c : CircuitData) :
  (forall p l, parent_circuit_id c = Some p ->
               system_hierarchy self !! p = Some l -> circuit_id c ∉ l) ->
  fst (validate_system_constraints (snd (validate_system_constraints self c)) c)
  = fst (validate_system_constraints self c).
Proof.
  intros Hfresh. unfold validate_system_constraints; simpl.
  rewrite (regraft self c Hfresh). reflexivity.
Qed.

Lemma validate_twice_witness :
  fst (validate_system_constraints
         (snd (validate_system_constraints Scenario.panel_with_branch
                 Scenario.heavy_branch)) Scenario.heavy_branch)
  = fst (validate_system_constraints Scenario.panel_with_branch Scenario.heavy_branch).
Proof.
  apply validate_twice.
  intros p l [= <-] H. vm_compute in H. injection H as <-.
  apply not_elem_of_cons. split; [discriminate | apply not_elem_of_nil].
Defined.

(** C6 as stated fails when the id is already listed under the parent: the
    release moves the id to the end of the child list, the loads of the
    children are then summed in another order, and binary64 addition
    depends on the order. *)
Lemma validate_twice_differs :
  fst (validate_system_constraints
         (snd (validate_system_constraints Scenario.panel_with_two_branches
                 Scenario.replacement_branch)) Scenario.replacement_branch)
  <> fst (validate_system_constraints Scenario.panel_with_two_branches
            Scenario.replacement_branch).
Proof.
  intros H.
  apply (f_equal (fun r => match r with
                           | Ok (_ :: _ :: chk :: _) => current_value chk
                           | _ => 0%float
                           end)) in H.
  vm_compute in H.
  apply (f_equal (PrimFloat.eqb 12.135690396559959)) in H.
  vm_compute in H. discriminate.
Qed.

(** ** The overall status of a report (C7) *)

Lemma has_severity_iff (level : string) (chk : SystemConstraintCheck) :
  has_severity level chk = true <-> severity_level chk = level.
Proof. unfold has_severity. apply String.eqb_eq. Qed.

Lemma filter_nil_iff {A : Type} (f : A -> bool) (l : list A) :
  List.filter f l = [] <-> forall x, In x l -> f x = false.
Proof.
  induction l as [|a l IH]; simpl.
  - split; [intros _ x [] | reflexivity].
  - destruct (f a) eqn:E; split.
    + discriminate.
    + intros H. specialize (H a (or_introl eq_refl)). congruence.
    + intros H x [<-|Hx]; [exact E | now apply IH].
    + intros H. apply IH. intros x Hx. apply H. now right.
Qed.

Lemma filter_cons_witness {A : Type} (f : A -> bool) (l : list A) (a : A) (rest : list A) :
  List.filter f l = a :: rest -> In a l /\ f a = true.
Proof.
  intros H. apply filter_In. rewrite H. now left.
Qed.

Lemma report_of_validated (self : ElectricalSystemAnalyzer) (c : CircuitData)
    (timestamp : result string) (report : IntegrationReport) :
  fst (generate_integration_report self c timestamp) = Ok report ->
  exists constraints,
    fst (validate_system_constraints self c) = Ok constraints /\
    constraint_checks report = constraints /\
    overall_status report =
      match List.filter (has_severity "critical") constraints,
            List.filter (has_severity "warning") constraints with
      | _ :: _, _ => "FAIL"
      | [], _ :: _ => "PASS_WITH_WARNINGS"
      | [], [] => "PASS"
      end.
Proof.
  unfold generate_integration_report.
  destruct (validate_system_constraints self c) as [[constraints|e] self1];
    simpl; [|discriminate].
  intros H. exists constraints. split; [reflexivity|].
  unfold assemble_report in H.
  apply rbind_Ok in H as (thermal & _ & H).
  apply rbind_Ok in H as (voltage & _ & H).
  apply rbind_Ok in H as (harmonic & _ & H).
  apply rbind_Ok in H as (now & _ & H).
  injection H as <-. simpl. split; reflexivity.
Qed.

(** C7. In every report that [generate_integration_report] produces,
    [overall_status] is FAIL exactly when some check is critical, PASS
    exactly when no check is critical or warning, and PASS_WITH_WARNINGS in
    the remaining case: no critical check and some warning. *)
Theorem overall_status_iff (self : ElectricalSystemAnalyzer) (c : CircuitData)
    (timestamp : result string) (report : IntegrationReport) :
  fst (generate_integration_report self c timestamp) = Ok report ->
  let checks := constraint_checks report in
  let some_critical := exists chk, In chk checks /\ severity_level chk = "critical" in
  let some_warning := exists chk, In chk checks /\ severity_level chk = "warning" in
  (overall_status report = "FAIL" <-> some_critical) /\
  (overall_status report = "PASS" <-> ~ some_critical /\ ~ some_warning) /\
  (overall_status report = "PASS_WITH_WARNINGS" <-> ~ some_critical /\ some_warning).
Proof.
  intros H. apply report_of_validated in H as (constraints & _ & -> & ->).
  simpl.
  destruct (List.filter (has_severity "critical") constraints) as [|k ks] eqn:Ec.
  - assert (Hnc : ~ exists chk, In chk constraints /\ severity_level chk = "critical").
    { intros (chk & Hin & Hs). apply has_severity_iff in Hs.
      rewrite (proj1 (filter_nil_iff _ _) Ec chk Hin) in Hs. discriminate. }
    destruct (List.filter (has_severity "warning") constraints) as [|w ws] eqn:Ew.
    + assert (Hnw : ~ exists chk, In chk constraints /\ severity_level chk = "warning").
      { intros (chk & Hin & Hs). apply has_severity_iff in Hs.
        rewrite (proj1 (filter_nil_iff _ _) Ew chk Hin) in Hs. discriminate. }
      repeat split; try discriminate; try tauto.
    + apply filter_cons_witness in Ew as [Hin Hs]. apply has_severity_iff in Hs.
      assert (Hw : exists chk, In chk constraints /\ severity_level chk = "warning")
        by eauto.
      repeat split; try discriminate; try tauto.
  - apply filter_cons_witness in Ec as [Hin Hs]. apply has_severity_iff in Hs.
    assert (Hc : exists chk, In chk constraints /\ severity_level chk = "critical")
      by eauto.
    repeat split; try discriminate; try tauto.
Qed.

Lemma overall_status_iff_witness :
  exists report,
    fst (generate_integration_report new_analyzer example_circuit
           (Ok "2026-01-01T00:00:00")) = Ok report /\
    (overall_status report = "FAIL" <->
     exists chk, In chk (constraint_checks report) /\ severity_level chk = "critical").
Proof.
  eexists. split.
  - vm_compute. reflexivity.
  - apply (overall_status_iff new_analyzer example_circuit (Ok "2026-01-01T00:00:00")).
    vm_compute. reflexivity.
Defined.

(** ** The severity of the checks (C2) *)

Lemma meets_code_spec (cfg : Config) (c : CircuitData) (v : VoltageDropAnalysis) :
  analyze_voltage_drop cfg c = Ok v ->
  meets_code_requirements v
  = PrimFloat.leb (voltage_drop_percent v) (voltage_drop_limit_percent cfg).
Proof.
  unfold analyze_voltage_drop.
  destruct (get_wire_properties (wire_awg c)); [|discriminate].
  intros H. apply rbind_Ok in H as (q & _ & H).
  apply rbind_Ok in H as (u & _ & H). injection H as <-. reflexivity.
Qed.

(** the shape of a successful evaluation *)
Lemma evaluate_constraints_Ok (self : ElectricalSystemAnalyzer) (c : CircuitData)
    (checks : list SystemConstraintCheck) :
  evaluate_constraints self c = Ok checks ->
  exists thermal voltage c2 loading harmonic c4,
    analyze_thermal_performance (config self) c = Ok thermal /\
    analyze_voltage_drop (config self) c = Ok voltage /\
    voltage_check (config self) voltage = Ok c2 /\
    parent_loading self c = Ok loading /\
    analyze_harmonic_distortion (loads c) = Ok harmonic /\
    harmonic_check (config self) harmonic = Ok c4 /\
    checks = ([thermal_check (config self) c thermal; c2]
              ++ match loading with
                 | Some pct => [parent_check (config self) pct]
                 | None => []
                 end ++ [c4])%list.
Proof.
  unfold evaluate_constraints. intros H.
  apply rbind_Ok in H as (thermal & Ht & H).
  apply rbind_Ok in H as (voltage & Hv & H).
  apply rbind_Ok in H as (c2 & Hc2 & H).
  apply rbind_Ok in H as (loading & Hl & H).
  apply rbind_Ok in H as (harmonic & Hh & H).
  apply rbind_Ok in H as (c4 & Hc4 & H).
  injection H as <-.
  exists thermal, voltage, c2, loading, harmonic, c4. auto 10.
Qed.

(** C2 (amended). Each check that [validate_system_constraints] produces
    has one of the four names, and its severity follows the policy of that
    name: Conductor Ampacity is critical below a zero margin, warning below
    the configured minimum margin, info otherwise; Voltage Drop is critical
    when the drop exceeds the limit and info otherwise; Parent Circuit
    Loading is critical above 100 percent, warning above the configured
    limit, info otherwise; Current THD is warning above the limit and info
    otherwise. *)
Theorem severity_by_check (self : ElectricalSystemAnalyzer) (c : CircuitData)
    (checks : list SystemConstraintCheck) :
  fst (validate_system_constraints self c) = Ok checks ->
  forall chk, In chk checks ->
    In (constraint_name chk) check_names /\
    severity_level chk = check_severity (config self) chk.
Proof.
  unfold validate_system_constraints; simpl. intros H.
  apply evaluate_constraints_Ok in H
    as (thermal & voltage & c2 & loading & harmonic & c4
        & _ & Hv & Hc2 & _ & _ & Hc4 & ->).
  change (config (add_circuit c self)) with (config self) in *.
  intros chk Hin. simpl in Hin.
  destruct Hin as [<-|[<-|Hin]].
  - split; [simpl; auto|]. reflexivity.
  - unfold voltage_check in Hc2. apply rbind_Ok in Hc2 as (q & _ & Hc2).
    injection Hc2 as <-. split; [simpl; auto|].
    unfold check_severity; simpl.
    rewrite (meets_code_spec _ _ _ Hv).
    destruct (PrimFloat.leb _ _); reflexivity.
  - apply in_app_or in Hin as [Hin|[<-|[]]].
    + destruct loading as [pct|]; [|destruct Hin].
      destruct Hin as [<-|[]]. split; [simpl; auto|]. reflexivity.
    + unfold harmonic_check in Hc4. apply rbind_Ok in Hc4 as (q & _ & Hc4).
      injection Hc4 as <-. split; [simpl; auto 6|]. reflexivity.
Qed.

Lemma severity_by_check_witness :
  exists checks,
    fst (validate_system_constraints new_analyzer Scenario.distorting_circuit) = Ok checks /\
    forall chk, In chk checks ->
      In (constraint_name chk) check_names /\
      severity_level chk = check_severity default_config chk.
Proof.
  eexists. split.
  - vm_compute. reflexivity.
  - apply (severity_by_check new_analyzer Scenario.distorting_circuit).
    vm_compute. reflexivity.
Defined.

(** C2 as stated fails: the Current THD check of a circuit whose distortion
    is over the limit has a negative margin and the severity warning. *)
Lemma severity_not_uniform :
  ~ (forall self c checks,
       fst (validate_system_constraints self c) = Ok checks ->
       forall chk, In chk checks ->
         severity_level chk = uniform_severity (config self) chk).
Proof.
  intros H.
  destruct (fst (validate_system_constraints new_analyzer Scenario.distorting_circuit))
    as [checks|e] eqn:E; [|vm_compute in E; discriminate].
  pose proof (H new_analyzer Scenario.distorting_circuit checks E) as Hall.
  vm_compute in E. injection E as <-.
  match type of Hall with
  | forall chk, In chk [_; _; ?thd] -> _ =>
      specialize (Hall thd (or_intror (or_intror (or_introl eq_refl))))
  end.
  vm_compute in Hall. discriminate.
Qed.

(** ** The loading of the parent circuit (C5) *)

Lemma div_Ok (x y q : float) : Py.div x y = Ok q -> q = PrimFloat.div x y.
Proof.
  unfold Py.div. destruct (PrimFloat.eqb y Py.fzero); [discriminate|].
  now intros [= <-].
Qed.

Lemma thermal_derated (cfg : Config) (c : CircuitData) (r : ThermalAnalysisResult) :
  analyze_thermal_performance cfg c = Ok r ->
  ampacity_derated r = derated_ampacity_of c.
Proof.
  unfold analyze_thermal_performance.
  destruct (get_wire_properties (wire_awg c)); [|discriminate].
  intros H.
  apply rbind_Ok in H as (ratio & _ & H).
  apply rbind_Ok in H as (ratio2 & _ & H).
  apply rbind_Ok in H as (q & _ & H).
  apply rbind_Ok in H as (ttl & _ & H).
  injection H as <-. reflexivity.
Qed.

(** the loading that step 3 computes for a registered parent *)
Lemma parent_loading_value (self : ElectricalSystemAnalyzer) (c parent : CircuitData)
    (p : string) (loading : option float) :
  parent_circuit_id c = Some p -> p <> "" ->
  circuits self !! p = Some parent ->
  parent_loading self c = Ok loading ->
  loading =
    Some (PrimFloat.mul
            (PrimFloat.div
               (design_current (calculate_load_current (all_child_loads self p) true None))
               (derated_ampacity_of parent))
            100).
Proof.
  intros Hp Hne Hreg. unfold parent_loading. rewrite Hp. simpl.
  apply String.eqb_neq in Hne. rewrite Hne. simpl. rewrite Hreg.
  intros H.
  apply rbind_Ok in H as (pt & Hpt & H).
  apply rbind_Ok in H as (q & Hq & H).
  injection H as <-.
  apply div_Ok in Hq. rewrite Hq, (thermal_derated _ _ _ Hpt). reflexivity.
Qed.

(** C5 (amended). Let the candidate name a parent that is registered once
    the candidate is grafted, and let [validate_system_constraints] return
    its checks.  With the loading of the parent computed from the loads of
    all its children, the candidate included: if the loading is over 100
    and the configured limit is at most 100, the checks hold a Parent
    Circuit Loading check that does not pass and is critical; if the
    loading is over the configured limit and at most 100, they hold one
    that does not pass and is a warning. *)
Theorem parent_loading_severity (self : ElectricalSystemAnalyzer)
    (c parent : CircuitData) (p : string) (checks : list SystemConstraintCheck) :
  let grafted := add_circuit c self in
  let demand :=
    design_current (calculate_load_current (all_child_loads grafted p) true None) in
  let loading :=
    PrimFloat.mul (PrimFloat.div demand (derated_ampacity_of parent)) 100 in
  let plimit := config_get (parent_loading_limit_percent (config self)) 80.0 in
  let emitted severity :=
    exists chk, In chk checks /\
      constraint_name chk = "Parent Circuit Loading" /\
      current_value chk = loading /\
      passes_check chk = false /\ severity_level chk = severity in
  parent_circuit_id c = Some p -> p <> "" ->
  circuits grafted !! p = Some parent ->
  fst (validate_system_constraints self c) = Ok checks ->
  (PrimFloat.ltb 100 loading = true -> PrimFloat.leb plimit 100 = true ->
   emitted "critical") /\
  (PrimFloat.ltb plimit loading = true -> PrimFloat.leb loading 100 = true ->
   emitted "warning").
Proof.
  intros grafted demand loading plimit emitted Hp Hne Hreg H.
  unfold validate_system_constraints in H; simpl in H.
  apply evaluate_constraints_Ok in H
    as (thermal & voltage & c2 & l & harmonic & c4
        & _ & _ & _ & Hl & _ & _ & ->).
  apply (parent_loading_value _ _ _ _ _ Hp Hne Hreg) in Hl. subst l.
  fold grafted demand loading.
  change (config (add_circuit c self)) with (config self).
  assert (Hin : In (parent_check (config self) loading)
                   ([thermal_check (config self) c thermal; c2]
                    ++ [parent_check (config self) loading] ++ [c4])%list).
  { simpl. auto. }
  split.
  - intros Hover Hlim. exists (parent_check (config self) loading).
    split; [exact Hin|]. unfold parent_check; simpl. fold plimit.
    rewrite Hover, (FloatOrder.above_100_above_limit _ _ Hover Hlim). auto.
  - intros Hover Hle. exists (parent_check (config self) loading).
    split; [exact Hin|]. unfold parent_check; simpl. fold plimit.
    rewrite (FloatOrder.ltb_false_of_leb _ _ Hle), Hover,
      (FloatOrder.ltb_leb_false _ _ Hover). auto.
Qed.

Lemma parent_loading_severity_witness :
  exists checks chk,
    fst (validate_system_constraints Scenario.panel_with_branch Scenario.heavy_branch)
      = Ok checks /\
    In chk checks /\
    constraint_name chk = "Parent Circuit Loading" /\
    current_value chk = 148.11275680840899%float /\
    passes_check chk = false /\ severity_level chk = "critical".
Proof.
  eexists.
  assert (H : fst (validate_system_constraints Scenario.panel_with_branch
                     Scenario.heavy_branch) = Ok _) by (vm_compute; reflexivity).
  destruct (proj1 (parent_loading_severity Scenario.panel_with_branch
                     Scenario.heavy_branch Scenario.panel "PANEL-A" _
                     eq_refl ltac:(discriminate) ltac:(vm_compute; reflexivity) H)
              ltac:(vm_compute; reflexivity) ltac:(vm_compute; reflexivity))
    as (chk & Hin & Hname & Hval & Hpass & Hsev).
  exists chk. split; [exact H|]. split; [exact Hin|]. split; [exact Hname|].
  split; [rewrite Hval; vm_compute; reflexivity|]. split; [exact Hpass | exact Hsev].
Defined.

(** C5 as stated fails in two ways.  A candidate whose conductor size is not
    cataloged makes the evaluation raise before the parent is looked at,
    although the loads under the parent exceed its derated ampacity; and
    with a configured limit above 100 the check of a loading over 100 is
    critical and passes. *)
Lemma parent_loading_not_always_failing :
  fst (validate_system_constraints Scenario.panel_with_branch Scenario.uncataloged_branch)
    = Raise (UnknownWireSize "13") /\
  PrimFloat.ltb
    (derated_ampacity_of Scenario.panel)
    (design_current
       (calculate_load_current
          (all_child_loads
             (add_circuit Scenario.uncataloged_branch Scenario.panel_with_branch)
             "PANEL-A") true None)) = true /\
  exists c1 c2 chk c4,
    fst (validate_system_constraints Scenario.lenient_panel Scenario.heavy_branch)
      = Ok [c1; c2; chk; c4] /\
    constraint_name chk = "Parent Circuit Loading" /\
    PrimFloat.ltb 100 (current_value chk) = true /\
    severity_level chk = "critical" /\ passes_check chk = true.
Proof.
  split; [vm_compute; reflexivity|].
  split; [vm_compute; reflexivity|].
  do 4 eexists. split; [vm_compute; reflexivity|].
  repeat split; vm_compute; reflexivity.
Qed.

(** ** Load aggregation (C8) *)

Section Aggregation.

Variable include_diversity : bool.
Variable hour : option Z.

(** the loop, one accumulator at a time *)
Lemma fold_load_step (ls : list LoadData) (t : Totals) :
  let t' := fold_left (load_step include_diversity hour) ls t in
  total_continuous t'
    = fold_left PrimFloat.add
                (map (base_current include_diversity hour)
                     (List.filter is_continuous ls))
                (total_continuous t) /\
  total_non_continuous t'
    = fold_left PrimFloat.add
                (map (base_current include_diversity hour)
                     (List.filter (fun l => negb (is_continuous l)) ls))
                (total_non_continuous t) /\
  total_motor_starting t'
    = fold_left Py.max
                (map (starting_current include_diversity hour)
                     (List.filter is_motor ls))
                (total_motor_starting t).
Proof.
  revert t. induction ls as [|l ls IH]; intros t; simpl; [auto|].
  destruct (IH (load_step include_diversity hour t l)) as (Hc & Hn & Hm).
  rewrite Hc, Hn, Hm. unfold load_step; simpl.
  destruct (is_continuous l), (is_motor l); simpl; auto.
Qed.

End Aggregation.

Lemma max_comparable (a y : float) :
  PrimFloat.leb a a = true -> PrimFloat.leb (Py.max a y) (Py.max a y) = true.
Proof.
  intros Ha. unfold Py.max. destruct (PrimFloat.ltb a y) eqn:E; [|exact Ha].
  apply (FloatOrder.ltb_comparable _ _ E).
Qed.

Lemma le_max_l (a y : float) :
  PrimFloat.leb a a = true -> PrimFloat.leb a (Py.max a y) = true.
Proof.
  intros Ha. unfold Py.max. destruct (PrimFloat.ltb a y) eqn:E; [|exact Ha].
  destruct (PrimFloat.leb a y) eqn:L; [reflexivity|].
  pose proof (FloatOrder.ltb_comparable _ _ E) as [_ Hy].
  pose proof (FloatOrder.ltb_leb_false _ _ E) as Hya.
  rewrite ltb_spec in E. rewrite leb_spec in L.
  unfold SFltb in E. unfold SFleb in L.
  destruct (SFcompare (Prim2SF a) (Prim2SF y)) as [[]|]; discriminate.
Qed.

Lemma le_max_r (a y : float) :
  PrimFloat.leb a a = true -> PrimFloat.leb y y = true ->
  PrimFloat.leb y (Py.max a y) = true.
Proof.
  intros Ha Hy. unfold Py.max. destruct (PrimFloat.ltb a y) eqn:E; [exact Hy|].
  apply FloatOrder.leb_total; assumption.
Qed.

(** the running maximum never decreases *)
Lemma peak_above_start (xs : list float) (a : float) :
  PrimFloat.leb a a = true -> PrimFloat.leb a (fold_left Py.max xs a) = true.
Proof.
  revert a. induction xs as [|y ys IH]; intros a Ha; simpl; [exact Ha|].
  eapply FloatOrder.leb_trans; [apply (le_max_l a y); exact Ha|].
  apply IH, max_comparable, Ha.
Qed.

(** it dominates every comparable element *)
Lemma peak_upper_bound (xs : list float) (a x : float) :
  PrimFloat.leb a a = true -> In x xs -> PrimFloat.leb x x = true ->
  PrimFloat.leb x (fold_left Py.max xs a) = true.
Proof.
  revert a. induction xs as [|y ys IH]; intros a Ha Hin Hx; simpl; [destruct Hin|].
  destruct Hin as [->|Hin].
  - eapply FloatOrder.leb_trans; [apply (le_max_r a); assumption|].
    apply peak_above_start, max_comparable, Ha.
  - apply IH; [apply max_comparable, Ha | exact Hin | exact Hx].
Qed.

(** and it is the start value or one of the elements, never a sum *)
Lemma peak_attained (xs : list float) (a : float) :
  In (fold_left Py.max xs a) (a :: xs).
Proof.
  revert a. induction xs as [|y ys IH]; intros a; simpl; [auto|].
  destruct (IH (Py.max a y)) as [H|H].
  - unfold Py.max in H at 1. destruct (PrimFloat.ltb a y); rewrite <- H; auto.
  - auto.
Qed.

(** a peak over non-negative numbers is, up to the sign of zero, one of
    them *)
Lemma peak_is_element (xs : list float) :
  xs <> [] -> (forall x, In x xs -> PrimFloat.leb 0 x = true) ->
  exists m, In m xs /\ PrimFloat.eqb m (fold_left Py.max xs 0%float) = true.
Proof.
  intros Hne Hpos.
  destruct (peak_attained xs 0%float) as [H|H].
  - destruct xs as [|x rest]; [congruence|].
    exists x. split; [now left|].
    pose proof (Hpos x (or_introl eq_refl)) as H0x.
    apply FloatOrder.leb_antisym.
    + apply peak_upper_bound; [reflexivity | now left |].
      apply (FloatOrder.leb_comparable _ _ H0x).
    + rewrite <- H. exact H0x.
  - exists (fold_left Py.max xs 0%float). split; [exact H|].
    apply FloatOrder.leb_antisym;
      apply (FloatOrder.leb_comparable _ _ (Hpos _ H)).
Qed.

(** C8. [calculate_load_current] adds the base current of a load to the
    continuous total exactly when the load is critical, lighting or
    electronic, and to the non-continuous total otherwise; the design
    current is the continuous total times 1.25 plus the non-continuous
    total; the motor starting peak is the running maximum, from 0, of the
    starting currents of the motor loads: it is 0 or one of them, never a
    sum, it is at least every one of them that is a number, and when there
    are motor loads and their starting currents are non-negative it equals
    one of them; without loads the aggregates and the design current are
    0. *)
Theorem calculate_load_current_spec (ls : list LoadData)
    (include_diversity : bool) (hour : option Z) :
  let r := calculate_load_current ls include_diversity hour in
  let base := base_current include_diversity hour in
  let starts :=
    map (starting_current include_diversity hour) (List.filter is_motor ls) in
  continuous_current r = float_sum (map base (List.filter is_continuous ls)) /\
  non_continuous_current r
    = float_sum (map base (List.filter (fun l => negb (is_continuous l)) ls)) /\
  design_current r
    = PrimFloat.add (PrimFloat.mul (continuous_current r) 1.25)
                    (non_continuous_current r) /\
  motor_starting_peak r = float_peak starts /\
  In (motor_starting_peak r) (0%float :: starts) /\
  (forall x, In x starts -> PrimFloat.leb x x = true ->
             PrimFloat.leb x (motor_starting_peak r) = true) /\
  (starts <> [] -> (forall x, In x starts -> PrimFloat.leb 0 x = true) ->
   exists m, In m starts /\ PrimFloat.eqb m (motor_starting_peak r) = true) /\
  (ls = [] ->
   continuous_current r = 0%float /\ non_continuous_current r = 0%float /\
   design_current r = 0%float /\ motor_starting_peak r = 0%float /\
   harmonic_currents r = []).
Proof.
  simpl.
  destruct (fold_load_step include_diversity hour ls totals0) as (Hc & Hn & Hm).
  simpl in Hc, Hn, Hm.
  split; [exact Hc|]. split; [exact Hn|]. split; [reflexivity|].
  split; [exact Hm|]. rewrite Hm.
  split; [apply peak_attained|].
  split.
  { intros x Hin Hx. apply peak_upper_bound; [reflexivity | exact Hin | exact Hx]. }
  split.
  - apply peak_is_element.
  - intros ->. repeat split; reflexivity.
Qed.

Lemma calculate_load_current_spec_witness :
  let ls := [Scenario.motor_load "M1" 10.0 6.0; Scenario.distorting_load;
             Scenario.motor_load "M2" 4.0 3.0] in
  continuous_current (calculate_load_current ls true None) = 5.0%float /\
  design_current (calculate_load_current ls true None) = 20.25%float /\
  PrimFloat.leb 12.0 (motor_starting_peak (calculate_load_current ls true None)) = true /\
  design_current (calculate_load_current [] false None) = 0%float.
Proof.
  intros ls.
  destruct (calculate_load_current_spec ls true None)
    as (Hc & _ & Hd & _ & _ & Hub & _ & _).
  destruct (calculate_load_current_spec [] false None)
    as (_ & _ & _ & _ & _ & _ & _ & Hnil).
  split; [rewrite Hc; vm_compute; reflexivity|].
  split; [rewrite Hd; vm_compute; reflexivity|].
  split.
  - apply Hub; [right; left; vm_compute; reflexivity | vm_compute; reflexivity].
  - apply (Hnil eq_refl).
Defined.

(** ** Divisions that raise (C3) *)

(** a conductor derated to zero makes the thermal analysis raise, whatever
    the loads *)
Lemma thermal_zero_derating_raises (cfg : Config) (c : CircuitData) :
  get_wire_properties (wire_awg c) <> None ->
  PrimFloat.eqb (derated_ampacity_of c) 0 = true ->
  analyze_thermal_performance cfg c = Raise ZeroDivisionError.
Proof.
  intros Hw Hz. unfold analyze_thermal_performance.
  destruct (get_wire_properties (wire_awg c)); [|congruence].
  fold (derated_ampacity_of c). unfold Py.div at 1. unfold Py.fzero.
  rewrite Hz. reflexivity.
Qed.

(** C3 fails on the code.  Both inputs are in range: a load that draws no
    current and declares a third harmonic, and the example circuit of the
    module in a 56 degree ambient, the last breakpoint of the table of
    correction factors.  The k-factor sum divides by the fundamental
    current 0 (the THD and the neutral percentage are guarded against it,
    the k-factor is not); the thermal analysis divides by the derated
    ampacity 0. *)
Theorem analyzers_divide_by_zero :
  analyze_harmonic_distortion [Scenario.idle_load] = Raise ZeroDivisionError /\
  analyze_thermal_performance default_config Scenario.hot_circuit
    = Raise ZeroDivisionError /\
  nominal_current Scenario.idle_load = 0%float /\
  get_wire_properties (wire_awg Scenario.hot_circuit) <> None /\
  _get_temperature_correction_factor (ambient_temperature_c Scenario.hot_circuit)
    = 0%float.
Proof.
  split; [vm_compute; reflexivity|].
  split; [apply thermal_zero_derating_raises; [discriminate | vm_compute; reflexivity]|].
  split; [reflexivity|]. split; [discriminate | vm_compute; reflexivity].
Qed.

(** ** The upgrade ladder (C4) *)

(** the loop returns the first size of its list that meets the limit, and
    the sentinel when none does *)
Lemma try_sizes_first (cfg : Config) (c : CircuitData) (design : float)
    (candidates : list string) (u : string) :
  try_sizes cfg c design candidates = Ok u ->
  (u = consult_engineer /\ Forall (still_over cfg c design) candidates) \/
  (exists before after w pct,
     candidates = (before ++ u :: after)%list /\
     Forall (still_over cfg c design) before /\
     get_wire_properties u = Some w /\
     test_vd_percent c design w = Ok pct /\
     PrimFloat.leb pct (voltage_drop_limit_percent cfg) = true).
Proof.
  induction candidates as [|sz rest IH]; simpl.
  - intros [= <-]. left. split; [reflexivity | constructor].
  - destruct (get_wire_properties sz) as [w|] eqn:Hw.
    + intros H. apply rbind_Ok in H as (pct & Hpct & H).
      destruct (PrimFloat.leb pct (voltage_drop_limit_percent cfg)) eqn:Hle.
      * injection H as <-. right. exists [], rest, w, pct. simpl. auto.
      * assert (Hsz : still_over cfg c design sz).
        { intros w' pct' Hw' Hpct'. congruence. }
        destruct (IH H) as [[-> Hall]|(before & after & w' & pct' & -> & Hall & Hrest)].
        -- left. split; [reflexivity | constructor; assumption].
        -- right. exists (sz :: before), after, w', pct'.
           split; [reflexivity|]. split; [constructor; assumption | exact Hrest].
    + intros H.
      assert (Hsz : still_over cfg c design sz).
      { intros w' pct' Hw'. congruence. }
      destruct (IH H) as [[-> Hall]|(before & after & w' & pct' & -> & Hall & Hrest)].
      * left. split; [reflexivity | constructor; assumption].
      * right. exists (sz :: before), after, w', pct'.
        split; [reflexivity|]. split; [constructor; assumption | exact Hrest].
Qed.

(** C4 fails on the code for the sizes of the wire table that the ladder
    leaves out.  A 250 kcmil run over the limit makes [analyze_voltage_drop]
    raise the [ValueError] of [list.index]; a 4/0 run over the limit gets
    the sentinel although the cataloged size 400 brings the drop within the
    limit. *)
Theorem ladder_misses_cataloged_sizes :
  get_wire_properties "250" <> None /\
  analyze_voltage_drop default_config Scenario.kcmil_run = Raise (NotInList "250") /\
  (exists v, analyze_voltage_drop default_config Scenario.four_ought_run = Ok v /\
             meets_code_requirements v = false /\
             recommended_wire_upgrade v = Some consult_engineer) /\
  (exists w pct, get_wire_properties "400" = Some w /\
                 test_vd_percent Scenario.four_ought_run 200 w = Ok pct /\
                 PrimFloat.leb pct (voltage_drop_limit_percent default_config) = true).
Proof.
  split; [discriminate|].
  split; [vm_compute; reflexivity|].
  split.
  - eexists. split; [vm_compute; reflexivity|]. split; reflexivity.
  - do 2 eexists. split; [reflexivity|]. split; vm_compute; reflexivity.
Qed.

(** * Further properties of the analyzer *)

(** ** Registering circuits *)

(** X1. After [add_circuit] the circuit is found under its id and every
    other id is as before; with a non-empty parent id the circuit's id is
    the last child of that parent and the other child lists are as before;
    without a parent, or with an empty parent id, the index is unchanged. *)
Theorem add_circuit_lookup (self : ElectricalSystemAnalyzer) (c : CircuitData) :
  let added := add_circuit c self in
  circuits added !! circuit_id c = Some c /\
  (forall k, k <> circuit_id c -> circuits added !! k = circuits self !! k) /\
  (forall p, parent_circuit_id c = Some p -> p <> "" ->
     system_hierarchy added !! p
     = Some (default [] (system_hierarchy self !! p) ++ [circuit_id c])%list) /\
  (forall q, parent_circuit_id c <> Some q ->
     system_hierarchy added !! q = system_hierarchy self !! q) /\
  (Py.truthy (parent_circuit_id c) = false ->
     system_hierarchy added = system_hierarchy self).
Proof.
  simpl. split; [apply lookup_insert_eq|].
  split; [intros k Hk; apply lookup_insert_ne; congruence|].
  split.
  - intros p -> Hne. apply String.eqb_neq in Hne. simpl. rewrite Hne. simpl.
    apply lookup_insert_eq.
  - split.
    + intros q Hq. destruct (parent_circuit_id c) as [p|]; [|reflexivity].
      destruct (negb (String.eqb p "")); [|reflexivity].
      apply lookup_insert_ne. congruence.
    + intros Hf. destruct (parent_circuit_id c) as [p|]; [|reflexivity].
      simpl in Hf. rewrite Hf. reflexivity.
Qed.

Lemma add_circuit_lookup_witness :
  system_hierarchy (add_circuit Scenario.heavy_branch Scenario.panel_with_branch)
    !! "PANEL-A" = Some ["BRANCH-201"; "BRANCH-401"].
Proof.
  destruct (add_circuit_lookup Scenario.panel_with_branch Scenario.heavy_branch)
    as (_ & _ & H & _).
  rewrite (H "PANEL-A" eq_refl ltac:(discriminate)). vm_compute. reflexivity.
Defined.

Lemma fold_child_loads_app (reg : gmap string CircuitData) (l1 l2 : list string)
    (acc : list LoadData) :
  fold_left
    (fun acc child_id =>
       match reg !! child_id with
       | Some child_circuit => (acc ++ loads child_circuit)%list
       | None => acc
       end) (l1 ++ l2)%list acc
  = fold_left
      (fun acc child_id =>
         match reg !! child_id with
         | Some child_circuit => (acc ++ loads child_circuit)%list
         | None => acc
         end) l2
      (fold_left
         (fun acc child_id =>
            match reg !! child_id with
            | Some child_circuit => (acc ++ loads child_circuit)%list
            | None => acc
            end) l1 acc).
Proof. apply fold_left_app. Qed.

(** X2. [add_circuit] does not look for an earlier entry: adding a
    circuit that is already registered lists its id once more under its
    parent, and the loads gathered for the parent then hold the loads of the
    circuit one more time. *)
Theorem add_circuit_twice (self : ElectricalSystemAnalyzer) (c : CircuitData)
    (p : string) :
  parent_circuit_id c = Some p -> p <> "" ->
  let once := add_circuit c self in
  let twice := add_circuit c once in
  circuits twice = circuits once /\
  system_hierarchy twice !! p
  = Some (default [] (system_hierarchy once !! p) ++ [circuit_id c])%list /\
  all_child_loads twice p = (all_child_loads once p ++ loads c)%list.
Proof.
  intros Hp Hne. simpl.
  assert (Hc : circuits (add_circuit c (add_circuit c self))
               = circuits (add_circuit c self)).
  { simpl. apply insert_insert_eq. }
  assert (Hh : system_hierarchy (add_circuit c (add_circuit c self)) !! p
               = Some (default [] (system_hierarchy (add_circuit c self) !! p)
                       ++ [circuit_id c])%list).
  { unfold add_circuit at 1. simpl. rewrite Hp.
    apply String.eqb_neq in Hne. simpl. rewrite Hne. simpl.
    apply lookup_insert_eq. }
  split; [exact Hc|]. split; [exact Hh|].
  unfold all_child_loads. rewrite Hh, Hc. simpl.
  rewrite fold_child_loads_app. simpl.
  change (circuits (add_circuit c self) !! circuit_id c)
    with (<[circuit_id c := c]> (circuits self) !! circuit_id c).
  rewrite lookup_insert_eq. reflexivity.
Qed.

Lemma add_circuit_twice_witness :
  system_hierarchy
    (add_circuit Scenario.persisted_branch Scenario.panel_with_branch) !! "PANEL-A"
  = Some ["BRANCH-201"; "BRANCH-201"] /\
  length (all_child_loads
            (add_circuit Scenario.persisted_branch Scenario.panel_with_branch)
            "PANEL-A") = 2%nat.
Proof.
  destruct (add_circuit_twice (add_circuit Scenario.panel new_analyzer)
              Scenario.persisted_branch "PANEL-A" eq_refl ltac:(discriminate))
    as (_ & Hh & Hl).
  split.
  - etransitivity; [exact Hh|]. vm_compute. reflexivity.
  - unfold Scenario.panel_with_branch. rewrite Hl. vm_compute. reflexivity.
Defined.

(** ** What a validation leaves behind *)

Lemma release_graft_hierarchy_other (self : ElectricalSystemAnalyzer)
    (c : CircuitData) (q : string) :
  parent_circuit_id c <> Some q ->
  system_hierarchy (release c (add_circuit c self)) !! q
  = system_hierarchy self !! q.
Proof.
  intros Hq. unfold release. rewrite grafted_lookup.
  unfold add_circuit; simpl.
  destruct (parent_circuit_id c) as [p|]; [|reflexivity].
  assert (Hpq : p <> q) by congruence.
  destruct (negb (String.eqb p "")).
  - rewrite lookup_insert_eq. rewrite !lookup_insert_ne by exact Hpq. reflexivity.
  - destruct (system_hierarchy self !! p); [|reflexivity].
    rewrite lookup_insert_ne by exact Hpq. reflexivity.
Qed.

Lemma release_graft_config (self : ElectricalSystemAnalyzer) (c : CircuitData) :
  config (release c (add_circuit c self)) = config self.
Proof. rewrite release_config. reflexivity. Qed.

(** X3. Frame of a validation.  Whether [validate_system_constraints] or
    [generate_integration_report] return or raise, the entry of every other
    circuit id, the child list of every key other than the candidate's
    parent id, and the configuration are as before the call. *)
Theorem validation_frame (self : ElectricalSystemAnalyzer) (c : CircuitData)
    (timestamp : result string) :
  let after_validate := snd (validate_system_constraints self c) in
  let after_report := snd (generate_integration_report self c timestamp) in
  (forall k, k <> circuit_id c ->
     circuits after_validate !! k = circuits self !! k /\
     circuits after_report !! k = circuits self !! k) /\
  (forall q, parent_circuit_id c <> Some q ->
     system_hierarchy after_validate !! q = system_hierarchy self !! q /\
     system_hierarchy after_report !! q = system_hierarchy self !! q) /\
  config after_validate = config self /\
  config after_report = config self.
Proof.
  simpl.
  destruct (report_state self c timestamp) as [E|E]; rewrite E; clear E;
    rewrite ?release_graft_config; repeat split;
    rewrite ?release_graft_circuits, ?release_graft_hierarchy_other by assumption;
    rewrite ?lookup_delete_ne by congruence; reflexivity.
Qed.

Lemma validation_frame_witness :
  circuits (snd (validate_system_constraints Scenario.panel_with_branch
                   Scenario.colliding_candidate)) !! "PANEL-A"
  = Some Scenario.panel.
Proof.
  destruct (validation_frame Scenario.panel_with_branch Scenario.colliding_candidate
              (Ok "")) as (H & _).
  rewrite (proj1 (H "PANEL-A" ltac:(discriminate))). vm_compute. reflexivity.
Defined.

Lemma analyzer_eq (a b : ElectricalSystemAnalyzer) :
  circuits a = circuits b -> system_hierarchy a = system_hierarchy b ->
  config a = config b -> a = b.
Proof. destruct a, b; simpl; intros -> -> ->; reflexivity. Qed.

(** the index after graft and release, for a candidate not listed under
    its parent *)
Lemma release_graft_hierarchy_fresh (self : ElectricalSystemAnalyzer) (c : CircuitData) :
  (forall p l, parent_circuit_id c = Some p ->
               system_hierarchy self !! p = Some l -> circuit_id c ∉ l) ->
  system_hierarchy (release c (add_circuit c self))
  = match parent_circuit_id c with
    | Some p =>
        if Py.truthy (Some p)
        then <[p := default [] (system_hierarchy self !! p)]> (system_hierarchy self)
        else system_hierarchy self
    | None => system_hierarchy self
    end.
Proof.
  intros Hfresh. unfold release. rewrite grafted_lookup.
  unfold add_circuit; simpl.
  destruct (parent_circuit_id c) as [p0|]; [|reflexivity].
  destruct (negb (String.eqb p0 "")).
  - rewrite lookup_insert_eq, insert_insert_eq.
    assert (Hl0 : circuit_id c ∉ default [] (system_hierarchy self !! p0)).
    { destruct (system_hierarchy self !! p0) as [l0|] eqn:E; simpl.
      - eapply Hfresh; eauto.
      - apply not_elem_of_nil. }
    rewrite (list_remove_app_fresh _ _ Hl0). reflexivity.
  - destruct (system_hierarchy self !! p0) as [l0|] eqn:E; [|reflexivity].
    rewrite (list_remove_fresh _ _ (Hfresh _ _ eq_refl E)).
    apply insert_id. exact E.
Qed.

(** X4. Rollback.  When the candidate's id is not registered and not
    listed under its parent, and its parent id, if non-empty, already has a
    child list, [validate_system_constraints] leaves exactly the analyzer it
    was called on, whether it returns or raises. *)
Theorem validate_restores (self : ElectricalSystemAnalyzer) (c : CircuitData) :
  circuits self !! circuit_id c = None ->
  (forall p l, parent_circuit_id c = Some p ->
               system_hierarchy self !! p = Some l -> circuit_id c ∉ l) ->
  (forall p, parent_circuit_id c = Some p -> p <> "" ->
             system_hierarchy self !! p <> None) ->
  snd (validate_system_constraints self c) = self.
Proof.
  intros Hreg Hfresh Hkey. simpl. apply analyzer_eq.
  - rewrite release_graft_circuits. apply delete_id. exact Hreg.
  - rewrite (release_graft_hierarchy_fresh _ _ Hfresh).
    destruct (parent_circuit_id c) as [p|]; [|reflexivity]. simpl.
    destruct (String.eqb_spec p "") as [->|Hne]; [reflexivity|]. simpl.
    specialize (Hkey p eq_refl Hne).
    destruct (system_hierarchy self !! p) as [l|] eqn:E; [|congruence].
    simpl. apply insert_id. exact E.
  - apply release_graft_config.
Qed.

Lemma validate_restores_witness :
  snd (validate_system_constraints Scenario.panel_with_branch Scenario.heavy_branch)
  = Scenario.panel_with_branch.
Proof.
  apply validate_restores.
  - vm_compute. reflexivity.
  - intros p l [= <-] H. vm_compute in H. injection H as <-.
    apply not_elem_of_cons. split; [discriminate | apply not_elem_of_nil].
  - intros p [= <-] _ H. vm_compute in H. discriminate.
Defined.

(** X5. A candidate whose non-empty parent id has no child list yet leaves
    one behind: after [validate_system_constraints] the index maps the
    parent id to the empty list, so the analyzer is not the one before the
    call. *)
Theorem validate_leaves_empty_child_list (self : ElectricalSystemAnalyzer)
    (c : CircuitData) (p : string) :
  parent_circuit_id c = Some p -> p <> "" ->
  system_hierarchy self !! p = None ->
  system_hierarchy (snd (validate_system_constraints self c)) !! p = Some [] /\
  snd (validate_system_constraints self c) <> self.
Proof.
  intros Hp Hne Hnone.
  assert (H : system_hierarchy (snd (validate_system_constraints self c)) !! p
              = Some []).
  { simpl. rewrite release_graft_hierarchy_fresh.
    - rewrite Hp. apply String.eqb_neq in Hne. simpl. rewrite Hne. simpl.
      rewrite Hnone. apply lookup_insert_eq.
    - intros p' l Hp' Hl. rewrite Hp in Hp'. injection Hp' as <-. congruence. }
  split; [exact H|].
  intros E. rewrite E in H. congruence.
Qed.

Lemma validate_leaves_empty_child_list_witness :
  system_hierarchy
    (snd (validate_system_constraints new_analyzer Scenario.heavy_branch)) !! "PANEL-A"
  = Some [].
Proof.
  apply (validate_leaves_empty_child_list new_analyzer Scenario.heavy_branch "PANEL-A").
  - reflexivity.
  - discriminate.
  - apply lookup_empty.
Defined.

(** X6. When the candidate's id is not listed under its parent,
    [generate_integration_report] leaves the analyzer that
    [validate_system_constraints] leaves: the second graft and release of
    the report change nothing more. *)
Theorem report_leaves_validated_state (self : ElectricalSystemAnalyzer)
    (c : CircuitData) (timestamp : result string) :
  (forall p l, parent_circuit_id c = Some p ->
               system_hierarchy self !! p = Some l -> circuit_id c ∉ l) ->
  snd (generate_integration_report self c timestamp)
  = snd (validate_system_constraints self c).
Proof.
  intros Hfresh.
  destruct (report_state self c timestamp) as [E|E]; rewrite E; [reflexivity|].
  simpl. rewrite (regraft self c Hfresh). reflexivity.
Qed.

Lemma report_leaves_validated_state_witness :
  snd (generate_integration_report new_analyzer example_circuit (Ok "now"))
  = snd (validate_system_constraints new_analyzer example_circuit).
Proof.
  apply report_leaves_validated_state. intros p l H. discriminate H.
Defined.

(** ** An analyzer that only serves validations *)

Lemma release_graft_nothing_persisted (self : ElectricalSystemAnalyzer)
    (c : CircuitData) :
  nothing_persisted self -> nothing_persisted (release c (add_circuit c self)).
Proof.
  intros [Hc Hh]. split.
  - rewrite release_graft_circuits, Hc. apply delete_empty.
  - rewrite release_graft_hierarchy_fresh.
    + destruct (parent_circuit_id c) as [p0|]; [|exact Hh].
      destruct (Py.truthy (Some p0)); [|exact Hh].
      intros p l. destruct (decide (p0 = p)) as [->|Hne].
      * rewrite lookup_insert_eq. intros [= <-].
        destruct (system_hierarchy self !! p) as [l0|] eqn:E; [|reflexivity].
        simpl. eapply Hh; eauto.
      * rewrite lookup_insert_ne by exact Hne. apply Hh.
    + intros p l _ Hl. rewrite (Hh _ _ Hl). apply not_elem_of_nil.
Qed.

Lemma serve_nothing_persisted (self : ElectricalSystemAnalyzer) (r : request) :
  nothing_persisted self -> nothing_persisted (serve self r).
Proof.
  intros H. destruct r as [c|c timestamp]; simpl.
  - apply release_graft_nothing_persisted, H.
  - change (nothing_persisted (snd (generate_integration_report self c timestamp))).
    destruct (report_state self c timestamp) as [E|E]; rewrite E.
    + apply release_graft_nothing_persisted, H.
    + apply release_graft_nothing_persisted, release_graft_nothing_persisted, H.
Qed.

Lemma report_config (self : ElectricalSystemAnalyzer) (c : CircuitData)
    (timestamp : result string) :
  config (snd (generate_integration_report self c timestamp)) = config self.
Proof.
  destruct (report_state self c timestamp) as [E|E]; rewrite E;
    rewrite ?release_graft_config; reflexivity.
Qed.

(** X7. Validation alone never persists anything: started from a new
    analyzer, any sequence of [validate_system_constraints] and
    [generate_integration_report] calls, returning or raising, leaves an
    analyzer with no registered circuit and with only empty child lists;
    the configuration is the default one. *)
Theorem serve_all_persists_nothing (rs : list request) :
  nothing_persisted (serve_all rs new_analyzer) /\
  config (serve_all rs new_analyzer) = default_config.
Proof.
  unfold serve_all.
  assert (H : nothing_persisted new_analyzer /\ config new_analyzer = default_config).
  { split; [split; [reflexivity|]|reflexivity].
    intros p l Hl. simpl in Hl. rewrite lookup_empty in Hl. discriminate. }
  revert H. generalize new_analyzer.
  induction rs as [|r rs IH]; intros s [Hs Hcfg]; simpl; [auto|].
  apply IH. split; [apply serve_nothing_persisted, Hs|].
  rewrite <- Hcfg. destruct r as [c|c timestamp]; simpl.
  - apply release_graft_config.
  - apply report_config.
Qed.

Lemma serve_all_persists_nothing_witness :
  circuits
    (serve_all [ReportRequest Scenario.heavy_branch (Ok "now");
                ValidateRequest Scenario.uncataloged_branch;
                ReportRequest example_circuit (Raise ClockError)] new_analyzer) = ∅.
Proof. apply (serve_all_persists_nothing _). Defined.

(** ** The list of checks *)

Lemma parent_loading_present (self : ElectricalSystemAnalyzer) (c : CircuitData)
    (loading : option float) :
  parent_loading (add_circuit c self) c = Ok loading ->
  parent_evaluated self c = match loading with Some _ => true | None => false end.
Proof.
  unfold parent_loading, parent_evaluated.
  destruct (parent_circuit_id c) as [p|]; [|intros [= <-]; reflexivity].
  destruct (Py.truthy (Some p)); [|intros [= <-]; reflexivity].
  destruct (circuits (add_circuit c self) !! p); [|intros [= <-]; reflexivity].
  intros H. apply rbind_Ok in H as (pt & _ & H).
  apply rbind_Ok in H as (q & _ & H). injection H as <-. reflexivity.
Qed.

Lemma voltage_check_name (cfg : Config) (v : VoltageDropAnalysis)
    (chk : SystemConstraintCheck) :
  voltage_check cfg v = Ok chk ->
  constraint_name chk = "Voltage Drop" /\
  current_value chk = voltage_drop_percent v /\
  passes_check chk = meets_code_requirements v /\
  severity_level chk = (if meets_code_requirements v then "info" else "critical").
Proof.
  unfold voltage_check. intros H. apply rbind_Ok in H as (q & _ & H).
  injection H as <-. simpl. destruct (meets_code_requirements v); auto.
Qed.

Lemma harmonic_check_name (cfg : Config) (h : HarmonicAnalysis)
    (chk : SystemConstraintCheck) :
  harmonic_check cfg h = Ok chk ->
  constraint_name chk = "Current THD" /\
  current_value chk = thd_current_percent h /\
  passes_check chk
  = PrimFloat.leb (thd_current_percent h)
                  (config_get (thd_current_limit_percent cfg) 20.0) /\
  severity_level chk
  = (if PrimFloat.ltb (config_get (thd_current_limit_percent cfg) 20.0)
                      (thd_current_percent h)
     then "warning" else "info").
Proof.
  unfold harmonic_check. intros H. apply rbind_Ok in H as (q & _ & H).
  injection H as <-. simpl. auto.
Qed.

(** the names of the checks of a successful validation *)
Lemma checks_names (self : ElectricalSystemAnalyzer) (c : CircuitData)
    (checks : list SystemConstraintCheck) :
  fst (validate_system_constraints self c) = Ok checks ->
  map constraint_name checks
  = (["Conductor Ampacity"; "Voltage Drop"]
     ++ (if parent_evaluated self c then ["Parent Circuit Loading"] else [])
     ++ ["Current THD"])%list.
Proof.
  unfold validate_system_constraints; simpl. intros H.
  apply evaluate_constraints_Ok in H
    as (thermal & voltage & c2 & loading & harmonic & c4
        & _ & _ & Hc2 & Hl & _ & Hc4 & ->).
  apply voltage_check_name in Hc2 as (Hn2 & _).
  apply harmonic_check_name in Hc4 as (Hn4 & _).
  rewrite (parent_loading_present _ _ _ Hl).
  destruct loading; simpl; rewrite Hn2, Hn4; reflexivity.
Qed.

(** X8. A validation that returns gives its checks in a fixed order:
    Conductor Ampacity, Voltage Drop, then Parent Circuit Loading exactly
    when the parent id is non-empty and registered once the candidate is
    grafted, then Current THD; so three checks or four. *)
Theorem checks_in_order (self : ElectricalSystemAnalyzer) (c : CircuitData)
    (checks : list SystemConstraintCheck) :
  fst (validate_system_constraints self c) = Ok checks ->
  map constraint_name checks
  = (["Conductor Ampacity"; "Voltage Drop"]
     ++ (if parent_evaluated self c then ["Parent Circuit Loading"] else [])
     ++ ["Current THD"])%list /\
  length checks = (if parent_evaluated self c then 4 else 3)%nat.
Proof.
  intros H. pose proof (checks_names _ _ _ H) as Hn. split; [exact Hn|].
  rewrite <- (length_map constraint_name), Hn.
  destruct (parent_evaluated self c); reflexivity.
Qed.

Lemma checks_in_order_witness :
  exists checks,
    fst (validate_system_constraints Scenario.panel_with_branch Scenario.heavy_branch)
      = Ok checks /\
    length checks = 4%nat.
Proof.
  eexists. split; [vm_compute; reflexivity|].
  apply (checks_in_order Scenario.panel_with_branch Scenario.heavy_branch).
  vm_compute. reflexivity.
Defined.

(** X9. On an analyzer without registered circuits, which is all a caller
    that never adds a circuit can have, a validation that returns holds a
    Parent Circuit Loading check exactly when the candidate names itself as
    its parent (with a non-empty id). *)
Theorem parent_check_without_registry (self : ElectricalSystemAnalyzer)
    (c : CircuitData) (checks : list SystemConstraintCheck) :
  circuits self = ∅ ->
  fst (validate_system_constraints self c) = Ok checks ->
  (In "Parent Circuit Loading" (map constraint_name checks) <->
   parent_circuit_id c = Some (circuit_id c) /\ circuit_id c <> "").
Proof.
  intros Hempty H. rewrite (checks_names _ _ _ H).
  assert (Hpe : parent_evaluated self c = true <->
                parent_circuit_id c = Some (circuit_id c) /\ circuit_id c <> "").
  { unfold parent_evaluated. simpl. rewrite Hempty.
    destruct (parent_circuit_id c) as [p|].
    - destruct (String.eqb_spec p "") as [->|Hne]; simpl.
      + split; [discriminate|]. intros [Hp Hn]. injection Hp as Hp. congruence.
      + destruct (decide (circuit_id c = p)) as [Hcp|Hcp].
        * rewrite Hcp, lookup_insert_eq. split; [intros _|reflexivity].
          split; [reflexivity | congruence].
        * rewrite lookup_insert_ne, lookup_empty by exact Hcp.
          split; [discriminate|]. intros [Hp _]. injection Hp as Hp. congruence.
    - split; [discriminate|]. intros [[=] _]. }
  destruct (parent_evaluated self c); simpl.
  - split; [intros _; apply Hpe; reflexivity | intros _; auto].
  - split.
    + intros [E|[E|[E|[]]]]; discriminate E.
    + intros Hself. apply Hpe in Hself. discriminate.
Qed.

Lemma parent_check_without_registry_witness :
  exists checks,
    fst (validate_system_constraints new_analyzer Scenario.heavy_branch) = Ok checks /\
    ~ In "Parent Circuit Loading" (map constraint_name checks).
Proof.
  eexists. split; [vm_compute; reflexivity|].
  intros Hin.
  apply (parent_check_without_registry new_analyzer Scenario.heavy_branch) in Hin
    as [Hself _]; [discriminate Hself | reflexivity | vm_compute; reflexivity].
Defined.

(** ** The report *)

(** what a returned report is made of *)
Lemma report_Ok_inv (self : ElectricalSystemAnalyzer) (c : CircuitData)
    (timestamp : result string) (report : IntegrationReport) :
  fst (generate_integration_report self c timestamp) = Ok report ->
  exists checks thermal voltage harmonic now,
    fst (validate_system_constraints self c) = Ok checks /\
    analyze_thermal_performance (config self) c = Ok thermal /\
    analyze_voltage_drop (config self) c = Ok voltage /\
    analyze_harmonic_distortion (loads c) = Ok harmonic /\
    timestamp = Ok now /\
    report_circuit_id report = circuit_id c /\
    analysis_timestamp report = now /\
    constraint_checks report = checks /\
    thermal_analysis report = thermal /\
    voltage_analysis report = voltage /\
    harmonic_analysis report = harmonic /\
    load_analysis report = calculate_load_current (loads c) true None /\
    recommendations report = _generate_recommendations checks /\
    required_modifications report = _generate_required_modifications checks /\
    critical_issues_count (system_impact_summary report)
      = length (List.filter (has_severity "critical") checks) /\
    warnings_count (system_impact_summary report)
      = length (List.filter (has_severity "warning") checks) /\
    estimated_implementation_risk (system_impact_summary report)
      = _assess_implementation_risk checks.
Proof.
  unfold generate_integration_report.
  destruct (validate_system_constraints self c) as [[checks|e] self1] eqn:V;
    simpl; [|discriminate].
  assert (Hcfg : config (add_circuit c self1) = config self).
  { pose proof (f_equal snd V) as E. simpl in E. rewrite <- E. simpl.
    apply release_graft_config. }
  unfold assemble_report. rewrite Hcfg. intros H.
  apply rbind_Ok in H as (thermal & Ht & H).
  apply rbind_Ok in H as (voltage & Hv & H).
  apply rbind_Ok in H as (harmonic & Hh & H).
  apply rbind_Ok in H as (now & Hnow & H).
  injection H as <-. simpl.
  exists checks, thermal, voltage, harmonic, now. auto 20.
Qed.

(** X10. [generate_integration_report] raises what the validation raises;
    when the validation returns, it raises what the timestamp expression
    raises, and otherwise returns a report that carries the candidate's id,
    the timestamp and the checks of the validation: the analyses it repeats
    cannot fail once the validation has passed. *)
Theorem report_outcome (self : ElectricalSystemAnalyzer) (c : CircuitData)
    (timestamp : result string) :
  match fst (validate_system_constraints self c), timestamp with
  | Raise e, _ => fst (generate_integration_report self c timestamp) = Raise e
  | Ok _, Raise e => fst (generate_integration_report self c timestamp) = Raise e
  | Ok checks, Ok now =>
      exists report,
        fst (generate_integration_report self c timestamp) = Ok report /\
        report_circuit_id report = circuit_id c /\
        analysis_timestamp report = now /\
        constraint_checks report = checks
  end.
Proof.
  unfold generate_integration_report.
  destruct (validate_system_constraints self c) as [[checks|e] self1] eqn:V;
    simpl; [|reflexivity].
  assert (Hcfg : config (add_circuit c self1) = config self).
  { pose proof (f_equal snd V) as E. simpl in E. rewrite <- E. simpl.
    apply release_graft_config. }
  pose proof (f_equal fst V) as Hv. simpl in Hv.
  apply evaluate_constraints_Ok in Hv
    as (thermal & voltage & c2 & loading & harmonic & c4
        & Ht & Hvd & _ & _ & Hh & _ & _).
  change (config (add_circuit c self)) with (config self) in *.
  unfold assemble_report. rewrite Hcfg, Ht, Hvd, Hh. simpl.
  destruct timestamp as [now|e]; simpl; [|reflexivity].
  eexists. split; [reflexivity|]. simpl. auto.
Qed.

(** X11. In a returned report the checks repeat the analyses of the report:
    the Conductor Ampacity check carries the derated ampacity, the design
    current and the thermal margin of [thermal_analysis] and
    [load_analysis], and the Voltage Drop check the drop percent and the
    verdict of [voltage_analysis]. *)
Theorem report_checks_match_analyses (self : ElectricalSystemAnalyzer)
    (c : CircuitData) (timestamp : result string) (report : IntegrationReport) :
  fst (generate_integration_report self c timestamp) = Ok report ->
  exists c1 c2 rest,
    constraint_checks report = c1 :: c2 :: rest /\
    current_value c1 = ampacity_derated (thermal_analysis report) /\
    limit_value c1 = design_current (load_analysis report) /\
    margin_percent c1 = thermal_margin_percent (thermal_analysis report) /\
    current_value c2 = voltage_drop_percent (voltage_analysis report) /\
    passes_check c2 = meets_code_requirements (voltage_analysis report).
Proof.
  intros H. apply report_Ok_inv in H
    as (checks & thermal & voltage & harmonic & now & Hv & Ht & Hvd & _ & _ & _ & _
        & -> & -> & -> & _ & -> & _).
  unfold validate_system_constraints in Hv; simpl in Hv.
  apply evaluate_constraints_Ok in Hv
    as (thermal' & voltage' & c2 & loading & harmonic' & c4
        & Ht' & Hvd' & Hc2 & _ & _ & _ & ->).
  change (config (add_circuit c self)) with (config self) in *.
  rewrite Ht in Ht'. injection Ht' as <-.
  rewrite Hvd in Hvd'. injection Hvd' as <-.
  apply voltage_check_name in Hc2 as (_ & Hcur & Hpass & _).
  eexists _, c2, _. split; [reflexivity|]. simpl. auto.
Qed.

Lemma report_checks_match_analyses_witness :
  exists report c1 rest,
    fst (generate_integration_report new_analyzer example_circuit (Ok "now"))
      = Ok report /\
    constraint_checks report = c1 :: rest /\
    margin_percent c1 = thermal_margin_percent (thermal_analysis report).
Proof.
  eexists.
  assert (H : fst (generate_integration_report new_analyzer example_circuit (Ok "now"))
              = Ok _) by (vm_compute; reflexivity).
  destruct (report_checks_match_analyses _ _ _ _ H)
    as (c1 & c2 & rest & Hc & _ & _ & Hm & _).
  exists c1, (c2 :: rest). split; [exact H|]. split; [exact Hc | exact Hm].
Defined.

Lemma ltb_implies_leb (a b : float) :
  PrimFloat.ltb a b = true -> PrimFloat.leb a b = true.
Proof.
  rewrite ltb_spec, leb_spec. unfold SFltb, SFleb.
  destruct (SFcompare (Prim2SF a) (Prim2SF b)) as [[]|]; congruence.
Qed.

Lemma ltb_asym (a b : float) :
  PrimFloat.ltb a b = true -> PrimFloat.ltb b a = false.
Proof.
  intros H. apply FloatOrder.ltb_false_of_leb, ltb_implies_leb, H.
Qed.

(** the four checks of a successful validation and what their severities
    can be *)
Lemma checks_structure (self : ElectricalSystemAnalyzer) (c : CircuitData)
    (checks : list SystemConstraintCheck) :
  fst (validate_system_constraints self c) = Ok checks ->
  exists thermal voltage c2 c3 harmonic c4,
    checks = ([thermal_check (config self) c thermal; c2] ++ c3 ++ [c4])%list /\
    voltage_check (config self) voltage = Ok c2 /\
    (c3 = [] \/ exists pct, c3 = [parent_check (config self) pct]) /\
    harmonic_check (config self) harmonic = Ok c4.
Proof.
  unfold validate_system_constraints; simpl. intros H.
  apply evaluate_constraints_Ok in H
    as (thermal & voltage & c2 & loading & harmonic & c4
        & _ & _ & Hc2 & _ & _ & Hc4 & ->).
  change (config (add_circuit c self)) with (config self) in *.
  exists thermal, voltage, c2,
    (match loading with Some pct => [parent_check (config self) pct] | None => [] end),
    harmonic, c4.
  split; [reflexivity|]. split; [exact Hc2|]. split; [|exact Hc4].
  destruct loading; eauto.
Qed.

Lemma modification_priority (chk : SystemConstraintCheck) (m : Modification) :
  In m (modification_for chk) -> priority m = "high".
Proof.
  unfold modification_for.
  destruct (str_contains "Conductor Ampacity" (constraint_name chk));
    [intros [<-|[]]; reflexivity|].
  destruct (str_contains "Voltage Drop" (constraint_name chk));
    [intros [<-|[]]; reflexivity|].
  destruct (str_contains "Parent Circuit" (constraint_name chk));
    [intros [<-|[]]; reflexivity|].
  intros [].
Qed.

Lemma modifications_count (checks : list SystemConstraintCheck) :
  Forall (fun chk => has_severity "critical" chk = true ->
                     length (modification_for chk) = 1%nat) checks ->
  length (_generate_required_modifications checks)
  = length (List.filter (has_severity "critical") checks).
Proof.
  unfold _generate_required_modifications.
  induction 1 as [|chk rest Hchk _ IH]; simpl; [reflexivity|].
  destruct (has_severity "critical" chk) eqn:E; [|exact IH].
  simpl. rewrite length_app, IH, (Hchk eq_refl). reflexivity.
Qed.

Lemma critical_checks_modified (self : ElectricalSystemAnalyzer) (c : CircuitData)
    (checks : list SystemConstraintCheck) :
  fst (validate_system_constraints self c) = Ok checks ->
  Forall (fun chk => has_severity "critical" chk = true ->
                     length (modification_for chk) = 1%nat) checks.
Proof.
  intros H. apply checks_structure in H
    as (thermal & voltage & c2 & c3 & harmonic & c4 & -> & Hc2 & Hc3 & Hc4).
  apply voltage_check_name in Hc2 as (Hn2 & _).
  apply harmonic_check_name in Hc4 as (_ & _ & _ & Hs4).
  simpl. constructor; [|constructor].
  - intros _. reflexivity.
  - intros _. unfold modification_for. rewrite Hn2. reflexivity.
  - apply Forall_app. split.
    + destruct Hc3 as [->|[pct ->]]; [constructor|].
      constructor; [intros _; reflexivity | constructor].
    + constructor; [|constructor]. unfold has_severity. rewrite Hs4.
      destruct (PrimFloat.ltb _ _); discriminate.
Qed.

(** X12. In a returned report there is one required modification for each
    critical check, every one of priority high; a Current THD check is
    never critical and asks for none. *)
Theorem report_modifications (self : ElectricalSystemAnalyzer) (c : CircuitData)
    (timestamp : result string) (report : IntegrationReport) :
  fst (generate_integration_report self c timestamp) = Ok report ->
  length (required_modifications report)
  = critical_issues_count (system_impact_summary report) /\
  (forall m, In m (required_modifications report) -> priority m = "high") /\
  (forall chk, In chk (constraint_checks report) ->
     constraint_name chk = "Current THD" -> severity_level chk <> "critical").
Proof.
  intros H. apply report_Ok_inv in H
    as (checks & thermal & voltage & harmonic & now & Hv & _ & _ & _ & _ & _ & _
        & -> & _ & _ & _ & _ & _ & -> & -> & _ & _).
  split; [apply modifications_count, (critical_checks_modified _ _ _ Hv)|].
  split.
  - unfold _generate_required_modifications. intros m Hm.
    apply in_concat in Hm as (ms & Hms & Hm).
    apply in_map_iff in Hms as (chk & <- & _).
    exact (modification_priority _ _ Hm).
  - apply checks_structure in Hv
      as (thermal' & voltage' & c2 & c3 & harmonic' & c4 & -> & Hc2 & Hc3 & Hc4).
    apply voltage_check_name in Hc2 as (Hn2 & _).
    apply harmonic_check_name in Hc4 as (_ & _ & _ & Hs4).
    intros chk Hin Hname. simpl in Hin.
    destruct Hin as [<-|[<-|Hin]]; [discriminate Hname | congruence |].
    apply in_app_or in Hin as [Hin|[<-|[]]].
    + destruct Hc3 as [->|[pct ->]]; [destruct Hin|].
      destruct Hin as [<-|[]]. discriminate Hname.
    + rewrite Hs4. destruct (PrimFloat.ltb _ _); discriminate.
Qed.

Lemma report_modifications_witness :
  exists report,
    fst (generate_integration_report Scenario.panel_with_branch Scenario.heavy_branch
           (Ok "now")) = Ok report /\
    length (required_modifications report) = 3%nat.
Proof.
  eexists.
  assert (H : fst (generate_integration_report Scenario.panel_with_branch
                     Scenario.heavy_branch (Ok "now")) = Ok _)
    by (vm_compute; reflexivity).
  split; [exact H|].
  rewrite (proj1 (report_modifications _ _ _ _ H)). vm_compute. reflexivity.
Defined.

Lemma filter_length_bound {A : Type} (f : A -> bool) (l : list A) :
  (length (List.filter f l) <= length l)%nat.
Proof.
  induction l as [|a l IH]; simpl; [lia|].
  destruct (f a); simpl; lia.
Qed.

(** a validation gives at most three warnings *)
Lemma warnings_bound (self : ElectricalSystemAnalyzer) (c : CircuitData)
    (checks : list SystemConstraintCheck) :
  fst (validate_system_constraints self c) = Ok checks ->
  (length (List.filter (has_severity "warning") checks) <= 3)%nat.
Proof.
  intros H. apply checks_structure in H
    as (thermal & voltage & c2 & c3 & harmonic & c4 & -> & Hc2 & Hc3 & Hc4).
  apply voltage_check_name in Hc2 as (_ & _ & _ & Hs2).
  assert (H2 : has_severity "warning" c2 = false).
  { unfold has_severity. rewrite Hs2.
    destruct (meets_code_requirements voltage); reflexivity. }
  change ([thermal_check (config self) c thermal; c2] ++ c3 ++ [c4])%list
    with ([thermal_check (config self) c thermal] ++ [c2] ++ c3 ++ [c4])%list.
  rewrite !List.filter_app, !length_app.
  assert (E2 : List.filter (has_severity "warning") [c2] = [])
    by (simpl; rewrite H2; reflexivity).
  rewrite E2.
  assert (B1 : (length (List.filter (has_severity "warning")
                          [thermal_check (config self) c thermal]) <= 1)%nat)
    by apply (filter_length_bound _ [_]).
  assert (B4 : (length (List.filter (has_severity "warning") [c4]) <= 1)%nat)
    by apply (filter_length_bound _ [_]).
  pose proof (filter_length_bound (has_severity "warning") c3) as B3.
  assert (L3 : (length c3 <= 1)%nat)
    by (destruct Hc3 as [->|[pct ->]]; simpl; lia).
  change (length (@nil SystemConstraintCheck)) with 0%nat. lia.
Qed.

(** X13. The risk of a returned report is LOW exactly when its status is not
    FAIL: it has at most three warnings, the four checks less the Voltage
    Drop check that is never a warning, so the test for more than three
    warnings never decides. *)
Theorem report_risk_low (self : ElectricalSystemAnalyzer) (c : CircuitData)
    (timestamp : result string) (report : IntegrationReport) :
  fst (generate_integration_report self c timestamp) = Ok report ->
  (warnings_count (system_impact_summary report) <= 3)%nat /\
  (estimated_implementation_risk (system_impact_summary report) = "LOW" <->
   overall_status report <> "FAIL") /\
  (estimated_implementation_risk (system_impact_summary report) = "HIGH" <->
   (2 < critical_issues_count (system_impact_summary report))%nat).
Proof.
  intros H. pose proof (report_of_validated _ _ _ _ H) as (checks' & Hv' & _ & Hst).
  apply report_Ok_inv in H
    as (checks & thermal & voltage & harmonic & now & Hv & _ & _ & _ & _ & _ & _
        & _ & _ & _ & _ & _ & _ & _ & -> & -> & ->).
  rewrite Hv in Hv'. injection Hv' as <-. rewrite Hst.
  pose proof (warnings_bound _ _ _ Hv) as Hw.
  split; [exact Hw|].
  unfold _assess_implementation_risk.
  destruct (List.filter (has_severity "critical") checks) as [|k ks];
    destruct (List.filter (has_severity "warning") checks) as [|w ws]; simpl in *.
  - repeat split; try discriminate; try lia; auto.
  - assert (E : (3 <? S (length ws))%nat = false) by (apply Nat.ltb_ge; lia).
    rewrite E. repeat split; try discriminate; try lia; auto.
  - destruct ks as [|k2 [|k3 ks]]; simpl;
      repeat split; try discriminate; try lia; try congruence; auto.
  - destruct ks as [|k2 [|k3 ks]]; simpl;
      repeat split; try discriminate; try lia; try congruence; auto.
Qed.

Lemma report_risk_low_witness :
  exists report,
    fst (generate_integration_report new_analyzer Scenario.distorting_circuit
           (Ok "now")) = Ok report /\
    estimated_implementation_risk (system_impact_summary report) = "LOW".
Proof.
  eexists.
  assert (H : fst (generate_integration_report new_analyzer Scenario.distorting_circuit
                     (Ok "now")) = Ok _) by (vm_compute; reflexivity).
  split; [exact H|].
  apply (proj1 (proj2 (report_risk_low _ _ _ _ H))). vm_compute. discriminate.
Defined.

(** ** Passing checks *)

Lemma passing_checks_info (self : ElectricalSystemAnalyzer) (c : CircuitData)
    (checks : list SystemConstraintCheck) :
  fst (validate_system_constraints self c) = Ok checks ->
  PrimFloat.leb 0 (config_get (thermal_margin_min_percent (config self)) 20.0) = true ->
  PrimFloat.leb (config_get (parent_loading_limit_percent (config self)) 80.0) 100
    = true ->
  Forall (fun chk => passes_check chk = true -> severity_level chk = "info") checks.
Proof.
  intros H Hmin Hlim. apply checks_structure in H
    as (thermal & voltage & c2 & c3 & harmonic & c4 & -> & Hc2 & Hc3 & Hc4).
  apply voltage_check_name in Hc2 as (_ & _ & Hp2 & Hs2).
  apply harmonic_check_name in Hc4 as (_ & _ & Hp4 & Hs4).
  simpl. constructor; [|constructor].
  - unfold thermal_check; simpl. intros Hpass.
    rewrite (ltb_asym _ _ Hpass).
    destruct (PrimFloat.ltb (thermal_margin_percent thermal) 0) eqn:E; [|reflexivity].
    apply ltb_implies_leb in E.
    pose proof (FloatOrder.leb_trans _ _ _ E Hmin) as Hle.
    rewrite (FloatOrder.ltb_leb_false _ _ Hpass) in Hle. discriminate.
  - rewrite Hp2, Hs2. intros ->. reflexivity.
  - apply Forall_app. split.
    + destruct Hc3 as [->|[pct ->]]; [constructor|].
      constructor; [|constructor]. unfold parent_check; simpl. intros Hpass.
      rewrite (FloatOrder.ltb_false_of_leb _ _ Hpass).
      rewrite (FloatOrder.ltb_false_of_leb _ _ (FloatOrder.leb_trans _ _ _ Hpass Hlim)).
      reflexivity.
    + constructor; [|constructor]. rewrite Hp4, Hs4. intros Hpass.
      rewrite (FloatOrder.ltb_false_of_leb _ _ Hpass). reflexivity.
Qed.

(** X14. With a configured minimum thermal margin of at least 0 and a
    parent-loading limit of at most 100, every check of a validation that
    passes has the severity info. *)
Theorem passing_check_is_info (self : ElectricalSystemAnalyzer) (c : CircuitData)
    (checks : list SystemConstraintCheck) (chk : SystemConstraintCheck) :
  fst (validate_system_constraints self c) = Ok checks ->
  PrimFloat.leb 0 (config_get (thermal_margin_min_percent (config self)) 20.0) = true ->
  PrimFloat.leb (config_get (parent_loading_limit_percent (config self)) 80.0) 100
    = true ->
  In chk checks -> passes_check chk = true -> severity_level chk = "info".
Proof.
  intros H Hmin Hlim Hin.
  pose proof (passing_checks_info _ _ _ H Hmin Hlim) as Hall.
  rewrite List.Forall_forall in Hall. apply Hall, Hin.
Qed.

Lemma passing_check_is_info_witness :
  exists checks c1 rest,
    fst (validate_system_constraints new_analyzer example_circuit) = Ok checks /\
    checks = c1 :: rest /\ severity_level c1 = "info".
Proof.
  eexists.
  assert (H : fst (validate_system_constraints new_analyzer example_circuit) = Ok _)
    by (vm_compute; reflexivity).
  do 2 eexists. split; [exact H|]. split; [reflexivity|].
  apply (passing_check_is_info _ _ _ _ H); [reflexivity | reflexivity | | reflexivity].
  left. reflexivity.
Defined.

(** X15. With the same two thresholds, a returned report whose checks all
    pass has the status PASS and the risk LOW, no recommendation and no
    required modification. *)
Theorem clean_report (self : ElectricalSystemAnalyzer) (c : CircuitData)
    (timestamp : result string) (report : IntegrationReport) :
  fst (generate_integration_report self c timestamp) = Ok report ->
  PrimFloat.leb 0 (config_get (thermal_margin_min_percent (config self)) 20.0) = true ->
  PrimFloat.leb (config_get (parent_loading_limit_percent (config self)) 80.0) 100
    = true ->
  (forall chk, In chk (constraint_checks report) -> passes_check chk = true) ->
  overall_status report = "PASS" /\
  estimated_implementation_risk (system_impact_summary report) = "LOW" /\
  recommendations report = [] /\
  required_modifications report = [].
Proof.
  intros H Hmin Hlim Hpass.
  pose proof (report_of_validated _ _ _ _ H) as (checks' & Hv' & _ & Hst).
  apply report_Ok_inv in H
    as (checks & thermal & voltage & harmonic & now & Hv & _ & _ & _ & _ & _ & _
        & Hck & _ & _ & _ & _ & -> & -> & _ & _ & ->).
  rewrite Hv in Hv'. injection Hv' as <-. rewrite Hck in Hpass.
  pose proof (passing_checks_info _ _ _ Hv Hmin Hlim) as Hinfo.
  rewrite List.Forall_forall in Hinfo.
  assert (Hc : List.filter (has_severity "critical") checks = []).
  { apply filter_nil_iff. intros chk Hin. unfold has_severity.
    rewrite (Hinfo chk Hin (Hpass chk Hin)). reflexivity. }
  assert (Hw : List.filter (has_severity "warning") checks = []).
  { apply filter_nil_iff. intros chk Hin. unfold has_severity.
    rewrite (Hinfo chk Hin (Hpass chk Hin)). reflexivity. }
  assert (Hf : List.filter (fun chk => negb (passes_check chk)) checks = []).
  { apply filter_nil_iff. intros chk Hin. rewrite (Hpass chk Hin). reflexivity. }
  rewrite Hst. unfold _assess_implementation_risk, _generate_recommendations,
    _generate_required_modifications.
  rewrite Hc, Hw, Hf. auto.
Qed.

Lemma clean_report_witness :
  exists report,
    fst (generate_integration_report new_analyzer
           (Scenario.circuit "BRANCH-501" "12" 20.0 None [Scenario.plain_load "L" 5.0])
           (Ok "now")) = Ok report /\
    overall_status report = "PASS".
Proof.
  eexists.
  assert (H : fst (generate_integration_report new_analyzer
                     (Scenario.circuit "BRANCH-501" "12" 20.0 None
                        [Scenario.plain_load "L" 5.0]) (Ok "now")) = Ok _)
    by (vm_compute; reflexivity).
  split; [exact H|].
  apply (clean_report _ _ _ _ H); [reflexivity | reflexivity |].
  intros chk Hin. simpl in Hin.
  destruct Hin as [<-|[<-|[<-|[]]]]; reflexivity.
Defined.

(** ** Harmonic analysis without harmonics *)

Lemma positive_not_zero (f : float) :
  PrimFloat.ltb 0 f = true -> PrimFloat.eqb f 0 = false.
Proof.
  rewrite ltb_spec, FloatAxioms.eqb_spec.
  change (Prim2SF 0) with (S754_zero false).
  unfold SFltb, SFeqb, SFcompare.
  destruct (Prim2SF f) as [s|s| |s m e]; try destruct s; simpl; congruence.
Qed.

Lemma zero_div_positive (f : float) :
  PrimFloat.ltb 0 f = true -> PrimFloat.div 0 f = 0%float.
Proof.
  intros H. apply Prim2SF_inj. rewrite div_spec.
  rewrite ltb_spec in H. revert H.
  change (Prim2SF 0) with (S754_zero false).
  unfold SFltb, SFcompare, SF64div, SFdiv.
  destruct (Prim2SF f) as [s|s| |s m e]; try destruct s; simpl; try congruence;
    intros _; reflexivity.
Qed.

Lemma no_harmonics_currents (ls : list LoadData) (d : list (Z * float)) :
  no_harmonics ls ->
  fold_left (fun d load =>
               accumulate_harmonics (nominal_current load) (harmonic_content load) d)
            ls d = d.
Proof.
  intros H. revert d. induction H as [|l ls Hl _ IH]; intros d; simpl; [reflexivity|].
  rewrite Hl. apply IH.
Qed.

(** X16. For loads that declare no harmonic content, whatever their
    currents, [analyze_harmonic_distortion] does not raise: it returns no
    individual harmonic, zero current and voltage THD, zero neutral current
    and the k-factor 1. *)
Theorem harmonic_free_loads (ls : list LoadData) :
  no_harmonics ls ->
  analyze_harmonic_distortion ls
  = Ok {| thd_voltage_percent := 0; thd_current_percent := 0;
          individual_harmonics := []; k_factor_transformers := 1;
          neutral_current_percent := 0 |}.
Proof.
  intros H. unfold analyze_harmonic_distortion.
  rewrite (no_harmonics_currents ls [] H). simpl.
  destruct (PrimFloat.ltb 0
              (fold_left (fun acc load => PrimFloat.add acc (nominal_current load))
                         ls 0%float)) eqn:E.
  - unfold Py.sqrt, Py.div, Py.fzero.
    change (PrimFloat.ltb 0 0) with false. simpl.
    change (PrimFloat.sqrt 0) with 0%float.
    rewrite (positive_not_zero _ E). simpl.
    rewrite (zero_div_positive _ E). reflexivity.
  - reflexivity.
Qed.

Lemma harmonic_free_loads_witness :
  analyze_harmonic_distortion
    [Scenario.plain_load "A" 7.5; Scenario.motor_load "B" 0.0 6.0]
  = Ok {| thd_voltage_percent := 0; thd_current_percent := 0;
          individual_harmonics := []; k_factor_transformers := 1;
          neutral_current_percent := 0 |}.
Proof. apply harmonic_free_loads. repeat constructor. Defined.

(** ** The voltage-drop analysis and the ladder *)

Lemma list_index_split (x : string) (l : list string) (i : nat) :
  list_index x l = Ok i ->
  exists before, l = (before ++ x :: drop (S i) l)%list /\ ~ In x before.
Proof.
  revert i. induction l as [|y rest IH]; intros i; simpl; [discriminate|].
  destruct (String.eqb_spec y x) as [->|Hne].
  - intros [= <-]. exists []. simpl. rewrite drop_0. auto.
  - intros H. apply rbind_Ok in H as (j & Hj & H). injection H as <-.
    destruct (IH j Hj) as (before & Hb & Hnot).
    exists (y :: before). simpl. split; [congruence|].
    intros [E|E]; [congruence | auto].
Qed.

Lemma list_index_raises (x : string) (l : list string) :
  ~ In x l -> list_index x l = Raise (NotInList x).
Proof.
  induction l as [|y rest IH]; simpl; [reflexivity|].
  intros H. destruct (String.eqb_spec y x) as [->|Hne]; [tauto|].
  rewrite IH by tauto. reflexivity.
Qed.

Lemma voltage_drop_Ok_inv (cfg : Config) (c : CircuitData) (v : VoltageDropAnalysis) :
  analyze_voltage_drop cfg c = Ok v ->
  let design := design_current (calculate_load_current (loads c) true None) in
  voltage_at_load v = PrimFloat.sub (voltage_rating c) (voltage_drop_volts v) /\
  (if meets_code_requirements v then recommended_wire_upgrade v = None
   else exists u, recommended_wire_upgrade v = Some u /\
                  _recommend_wire_upgrade cfg c design (voltage_drop_percent v) = Ok u).
Proof.
  unfold analyze_voltage_drop.
  destruct (get_wire_properties (wire_awg c)); [|discriminate].
  intros H. apply rbind_Ok in H as (q & _ & H).
  apply rbind_Ok in H as (u & Hu & H). injection H as <-. simpl.
  split; [reflexivity|].
  destruct (PrimFloat.leb _ _).
  - injection Hu as <-. reflexivity.
  - apply rbind_Ok in Hu as (u' & Hu' & Hu). injection Hu as <-. eauto.
Qed.

(** X17. A voltage-drop analysis that returns recommends an upgrade exactly
    when the drop is over the limit.  The recommendation is then the
    sentinel, when no later size of the ladder meets the limit, or the
    first size after the circuit's own in the ladder that meets it; the
    voltage at the load is the rating less the drop. *)
Theorem voltage_drop_recommendation (cfg : Config) (c : CircuitData)
    (v : VoltageDropAnalysis) :
  analyze_voltage_drop cfg c = Ok v ->
  let design := design_current (calculate_load_current (loads c) true None) in
  voltage_at_load v = PrimFloat.sub (voltage_rating c) (voltage_drop_volts v) /\
  (meets_code_requirements v = true <-> recommended_wire_upgrade v = None) /\
  (forall u, recommended_wire_upgrade v = Some u ->
     exists smaller larger,
       wire_sizes = (smaller ++ wire_awg c :: larger)%list /\
       ((u = consult_engineer /\ Forall (still_over cfg c design) larger) \/
        (exists between after w pct,
           larger = (between ++ u :: after)%list /\
           Forall (still_over cfg c design) between /\
           get_wire_properties u = Some w /\
           test_vd_percent c design w = Ok pct /\
           PrimFloat.leb pct (voltage_drop_limit_percent cfg) = true))).
Proof.
  intros H design. apply voltage_drop_Ok_inv in H as (Hat & Hrec). fold design in Hrec.
  split; [exact Hat|].
  destruct (meets_code_requirements v).
  - rewrite Hrec. split; [tauto|]. intros u Hu. discriminate Hu.
  - destruct Hrec as (u & Hu & Hr). rewrite Hu.
    split; [split; discriminate|].
    intros u' [= <-].
    unfold _recommend_wire_upgrade in Hr.
    apply rbind_Ok in Hr as (i & Hi & Hr).
    apply list_index_split in Hi as (smaller & Hsplit & _).
    exists smaller, (drop (S i) wire_sizes). split; [exact Hsplit|].
    apply try_sizes_first in Hr. exact Hr.
Qed.

Lemma voltage_drop_recommendation_witness :
  exists v, analyze_voltage_drop default_config example_circuit = Ok v /\
            recommended_wire_upgrade v = Some "8" /\
            (meets_code_requirements v = true <-> recommended_wire_upgrade v = None).
Proof.
  eexists.
  assert (H : analyze_voltage_drop default_config example_circuit = Ok _)
    by (vm_compute; reflexivity).
  split; [exact H|]. split; [reflexivity|].
  exact (proj1 (proj2 (voltage_drop_recommendation _ _ _ H))).
Defined.

(** X18. For a conductor size that the ladder does not list, the kcmil
    sizes of the wire table among them, a voltage-drop analysis returns
    only when the drop meets the limit; over the limit it raises the
    [ValueError] of [list.index]. *)
Theorem voltage_drop_off_ladder (cfg : Config) (c : CircuitData) :
  ~ In (wire_awg c) wire_sizes ->
  match analyze_voltage_drop cfg c with
  | Ok v => meets_code_requirements v = true /\ recommended_wire_upgrade v = None
  | Raise e =>
      e = UnknownWireSize (wire_awg c) \/ e = ZeroDivisionError
      \/ e = NotInList (wire_awg c)
  end.
Proof.
  intros Hoff. unfold analyze_voltage_drop.
  destruct (get_wire_properties (wire_awg c)); [|auto].
  unfold Py.div at 1. destruct (PrimFloat.eqb (voltage_rating c) Py.fzero); simpl; [auto|].
  destruct (PrimFloat.leb _ _); simpl; [auto|].
  unfold _recommend_wire_upgrade. rewrite (list_index_raises _ _ Hoff). simpl. auto.
Qed.

Lemma voltage_drop_off_ladder_witness :
  analyze_voltage_drop default_config Scenario.kcmil_run
  = Raise (NotInList "250").
Proof.
  pose proof (voltage_drop_off_ladder default_config Scenario.kcmil_run) as H.
  assert (Hoff : ~ In (wire_awg Scenario.kcmil_run) wire_sizes).
  { simpl. intros Hin. repeat (destruct Hin as [Hin|Hin]; [discriminate Hin|]).
    exact Hin. }
  specialize (H Hoff).
  destruct (analyze_voltage_drop default_config Scenario.kcmil_run) as [v|e] eqn:E.
  - vm_compute in E. discriminate E.
  - vm_compute in E. injection E as <-. reflexivity.
Defined.

(** X19. The ladder ends at 4/0: a 4/0 circuit whose drop is over the limit
    always gets the sentinel as its recommendation, whatever its length,
    voltage and loads. *)
Theorem voltage_drop_last_size (cfg : Config) (c : CircuitData)
    (v : VoltageDropAnalysis) :
  wire_awg c = "4/0" ->
  analyze_voltage_drop cfg c = Ok v ->
  meets_code_requirements v = false ->
  recommended_wire_upgrade v = Some consult_engineer.
Proof.
  intros Hw H Hm. apply voltage_drop_Ok_inv in H as (_ & Hrec).
  rewrite Hm in Hrec. destruct Hrec as (u & -> & Hr).
  unfold _recommend_wire_upgrade in Hr. rewrite Hw in Hr. simpl in Hr.
  injection Hr as <-. reflexivity.
Qed.

Lemma voltage_drop_last_size_witness :
  exists v, analyze_voltage_drop default_config Scenario.four_ought_run = Ok v /\
            recommended_wire_upgrade v = Some consult_engineer.
Proof.
  eexists.
  assert (H : analyze_voltage_drop default_config Scenario.four_ought_run = Ok _)
    by (vm_compute; reflexivity).
  split; [exact H|].
  apply (voltage_drop_last_size default_config Scenario.four_ought_run _ eq_refl H).
  reflexivity.
Defined.

(** ** Time of day and the harmonic profile *)

Lemma base_current_daily (d : bool) (h k : Z) (l : LoadData) :
  base_current d (Some (h + 24 * k)%Z) l = base_current d (Some h) l.
Proof.
  unfold base_current. rewrite (Z.mul_comm 24 k), Z.mod_add by discriminate.
  reflexivity.
Qed.

Lemma base_current_past_schedule (d : bool) (h : Z) (l : LoadData) :
  (length (operating_schedule l) <= Z.to_nat (h mod 24))%nat ->
  base_current d (Some h) l = base_current d None l.
Proof.
  intros H. unfold base_current.
  destruct (operating_schedule l) as [|x xs] eqn:E; [reflexivity|].
  rewrite (proj2 (lookup_ge_None (x :: xs) _) H). reflexivity.
Qed.

Lemma calculate_load_current_ext (ls : list LoadData) (d : bool) (h1 h2 : option Z) :
  (forall l, In l ls -> base_current d h1 l = base_current d h2 l) ->
  calculate_load_current ls d h1 = calculate_load_current ls d h2.
Proof.
  intros H. unfold calculate_load_current.
  assert (E : forall t, fold_left (load_step d h1) ls t = fold_left (load_step d h2) ls t).
  { induction ls as [|l ls IH]; intros t; simpl; [reflexivity|].
    assert (Hl : load_step d h1 t l = load_step d h2 t l).
    { unfold load_step. rewrite (H l (or_introl eq_refl)). reflexivity. }
    rewrite Hl. apply IH. intros l' Hl'. apply H. now right. }
  rewrite E. reflexivity.
Qed.

(** X20. The hour of the day counts modulo 24, also when it is negative:
    [calculate_load_current] gives the same aggregates a whole number of
    days later; and for loads whose schedule has no entry at that hour it
    gives the aggregates it gives without an hour. *)
Theorem load_current_by_hour (ls : list LoadData) (d : bool) (h : Z) :
  (forall k, calculate_load_current ls d (Some (h + 24 * k)%Z)
             = calculate_load_current ls d (Some h)) /\
  ((forall l, In l ls ->
      (length (operating_schedule l) <= Z.to_nat (h mod 24))%nat) ->
   calculate_load_current ls d (Some h) = calculate_load_current ls d None).
Proof.
  split.
  - intros k. apply calculate_load_current_ext. intros l _. apply base_current_daily.
  - intros H. apply calculate_load_current_ext. intros l Hl.
    apply base_current_past_schedule, H, Hl.
Qed.

Lemma load_current_by_hour_witness :
  calculate_load_current [Scenario.plain_load "A" 7.5] true (Some 30%Z)
  = calculate_load_current [Scenario.plain_load "A" 7.5] true None.
Proof.
  apply (proj2 (load_current_by_hour [Scenario.plain_load "A" 7.5] true 30)).
  intros l [<-|[]]. simpl. lia.
Defined.

Lemma dict_accumulate_keys (k : Z) (v : float) (d : list (Z * float)) :
  keys (dict_accumulate k v d)
  = if existsb (Z.eqb k) (keys d) then keys d else (keys d ++ [k])%list.
Proof.
  unfold keys. induction d as [|[k' x] rest IH]; simpl; [reflexivity|].
  destruct (Z.eqb k k'); simpl; [reflexivity|].
  rewrite IH. destruct (existsb (Z.eqb k) (map fst rest)); reflexivity.
Qed.

Lemma existsb_eqb_In (k : Z) (l : list Z) :
  existsb (Z.eqb k) l = true <-> In k l.
Proof.
  rewrite existsb_exists. split.
  - intros (x & Hx & E). apply Z.eqb_eq in E. now subst.
  - intros H. exists k. split; [exact H | apply Z.eqb_refl].
Qed.

Lemma dict_accumulate_invariant (k : Z) (v : float) (d : list (Z * float)) :
  List.NoDup (keys d) ->
  List.NoDup (keys (dict_accumulate k v d)) /\
  (forall o, In o (keys (dict_accumulate k v d)) <-> o = k \/ In o (keys d)).
Proof.
  intros Hnd. rewrite dict_accumulate_keys.
  destruct (existsb (Z.eqb k) (keys d)) eqn:E.
  - apply existsb_eqb_In in E. split; [exact Hnd|].
    intros o. split; [auto | intros [->|H]; assumption].
  - assert (Hk : ~ In k (keys d)).
    { intros H. apply existsb_eqb_In in H. congruence. }
    split.
    + apply List.NoDup_app; [exact Hnd | repeat constructor; intros [] |].
      intros x Hx [<-|[]]. exact (Hk Hx).
    + intros o. rewrite in_app_iff. simpl. intuition.
Qed.

Lemma accumulate_harmonics_invariant (current : float) (content d : list (Z * float)) :
  List.NoDup (keys d) ->
  List.NoDup (keys (accumulate_harmonics current content d)) /\
  (forall o, In o (keys (accumulate_harmonics current content d))
             <-> In o (keys content) \/ In o (keys d)).
Proof.
  unfold accumulate_harmonics. revert d.
  induction content as [|[k m] rest IH]; intros d Hnd; simpl.
  - split; [exact Hnd|]. intros o. tauto.
  - destruct (dict_accumulate_invariant k (PrimFloat.mul current m) d Hnd) as [Hnd' Hin'].
    destruct (IH _ Hnd') as [Hnd'' Hin'']. split; [exact Hnd''|].
    intros o. rewrite Hin'', Hin'. intuition.
Qed.

Lemma profile_invariant (cur : LoadData -> float) (ls : list LoadData)
    (d : list (Z * float)) :
  List.NoDup (keys d) ->
  let profile :=
    fold_left (fun d l => accumulate_harmonics (cur l) (harmonic_content l) d) ls d in
  List.NoDup (keys profile) /\
  (forall o, In o (keys profile)
             <-> (exists l, In l ls /\ In o (keys (harmonic_content l))) \/ In o (keys d)).
Proof.
  revert d. induction ls as [|l ls IH]; intros d Hnd; simpl.
  - split; [exact Hnd|]. intros o. split; [auto | intros [(l & [] & _)|H]; exact H].
  - destruct (accumulate_harmonics_invariant (cur l) (harmonic_content l) d Hnd)
      as [Hnd' Hin'].
    destruct (IH _ Hnd') as [Hnd'' Hin'']. split; [exact Hnd''|].
    intros o. rewrite Hin'', Hin'. split.
    + intros [(l' & Hl' & Ho)|[Ho|Ho]]; eauto 6.
    + intros [(l' & [<-|Hl'] & Ho)|Ho]; eauto 6.
Qed.

Lemma fold_load_step_harmonics (d : bool) (h : option Z) (ls : list LoadData)
    (t : Totals) :
  total_harmonics (fold_left (load_step d h) ls t)
  = fold_left (fun acc l =>
                 accumulate_harmonics (base_current d h l) (harmonic_content l) acc)
              ls (total_harmonics t).
Proof.
  revert t. induction ls as [|l ls IH]; intros t; simpl; [reflexivity|].
  rewrite IH. reflexivity.
Qed.

(** X21. The harmonic profile that [calculate_load_current] returns, and
    the one [analyze_harmonic_distortion] returns, has one entry for each
    harmonic order that some load declares and no other entry: its keys are
    without duplicates and are exactly the declared orders. *)
Theorem harmonic_profile_keys (ls : list LoadData) (d : bool) (h : option Z) :
  let declared o := exists l, In l ls /\ In o (keys (harmonic_content l)) in
  (List.NoDup (keys (harmonic_currents (calculate_load_current ls d h))) /\
   forall o, In o (keys (harmonic_currents (calculate_load_current ls d h)))
             <-> declared o) /\
  (forall a, analyze_harmonic_distortion ls = Ok a ->
     List.NoDup (keys (individual_harmonics a)) /\
     forall o, In o (keys (individual_harmonics a)) <-> declared o).
Proof.
  simpl. split.
  - rewrite fold_load_step_harmonics. simpl.
    destruct (profile_invariant (base_current d h) ls [] (List.NoDup_nil _)) as [Hnd Hin].
    split; [exact Hnd|]. intros o. rewrite Hin. simpl. tauto.
  - intros a H. unfold analyze_harmonic_distortion in H.
    apply rbind_Ok in H as (p & _ & H).
    apply rbind_Ok in H as (thd & _ & H).
    apply rbind_Ok in H as (ks & _ & H).
    apply rbind_Ok in H as (n & _ & H).
    injection H as <-. simpl.
    destruct (profile_invariant nominal_current ls [] (List.NoDup_nil _)) as [Hnd Hin].
    split; [exact Hnd|]. intros o. rewrite Hin. simpl. tauto.
Qed.

Lemma harmonic_profile_keys_witness :
  exists a, analyze_harmonic_distortion [example_load; Scenario.distorting_load] = Ok a /\
            List.NoDup (keys (individual_harmonics a)) /\
            keys (individual_harmonics a) = [3%Z; 5%Z].
Proof.
  eexists.
  assert (H : analyze_harmonic_distortion [example_load; Scenario.distorting_load]
              = Ok _) by (vm_compute; reflexivity).
  split; [exact H|]. split; [|reflexivity].
  exact (proj1 (proj2 (harmonic_profile_keys _ true None) _ H)).
Defined.

(** ** The tables behind the derating *)

(** X22. The conduit-fill factor depends on the number of conductors only,
    not on the fill percentage; it is one of 1.00, 0.80, 0.70, 0.50 and
    0.35, and it does not grow with the number of conductors. *)
Theorem fill_factor_monotone (n m : Z) (fill fill' : float) :
  (n <= m)%Z ->
  PrimFloat.leb (_get_conduit_fill_correction_factor m fill')
                (_get_conduit_fill_correction_factor n fill) = true /\
  In (_get_conduit_fill_correction_factor n fill)
     [1.00; 0.80; 0.70; 0.50; 0.35]%float.
Proof.
  intros H. unfold _get_conduit_fill_correction_factor.
  destruct (Z.leb_spec n 3), (Z.leb_spec n 6), (Z.leb_spec n 9), (Z.leb_spec n 20),
           (Z.leb_spec m 3), (Z.leb_spec m 6), (Z.leb_spec m 9), (Z.leb_spec m 20);
    try lia; split; try (vm_compute; reflexivity); simpl; auto 6.
Qed.

Lemma fill_factor_monotone_witness :
  PrimFloat.leb (_get_conduit_fill_correction_factor 12 80.0)
                (_get_conduit_fill_correction_factor 4 10.0) = true.
Proof. apply (fill_factor_monotone 4 12 10.0 80.0). lia. Defined.

Lemma closest_in_table (t : float) (rest : list (float * float)) (best : float * float) :
  In (fold_left (closest_step t) rest best) (best :: rest).
Proof.
  revert best. induction rest as [|kv rest IH]; intros best; simpl; [auto|].
  destruct (IH (closest_step t best kv)) as [H|H]; [|auto].
  unfold closest_step in H at 1.
  destruct (PrimFloat.ltb _ _); rewrite <- H; auto.
Qed.

Lemma temp_factors_range :
  forallb (fun kv => PrimFloat.leb 0 (snd kv) && PrimFloat.leb (snd kv) 1.08)
          temp_factors = true.
Proof. vm_compute. reflexivity. Qed.

(** X23. Whatever the ambient temperature, a NaN or an infinity included,
    the temperature correction factor is one of the eight factors of the
    table, so it lies between 0.00 and 1.08. *)
Theorem temperature_factor_tabulated (ambient : float) :
  In (_get_temperature_correction_factor ambient) (map snd temp_factors) /\
  PrimFloat.leb 0 (_get_temperature_correction_factor ambient) = true /\
  PrimFloat.leb (_get_temperature_correction_factor ambient) 1.08 = true.
Proof.
  unfold _get_temperature_correction_factor.
  pose proof (closest_in_table ambient (tl temp_factors) (21, 1.08)%float) as H.
  change ((21, 1.08)%float :: tl temp_factors) with temp_factors in H.
  split; [apply in_map, H|].
  pose proof (proj1 (forallb_forall _ _) temp_factors_range _ H) as R.
  apply andb_prop in R. exact R.
Qed.

Lemma wire_columns_positive :
  forallb (fun kv => negb (PrimFloat.eqb (ampacity_60c (snd kv)) 0)
                     && negb (PrimFloat.eqb (ampacity_75c (snd kv)) 0)
                     && negb (PrimFloat.eqb (ampacity_90c (snd kv)) 0))
          WIRE_DATA = true.
Proof. vm_compute. reflexivity. Qed.

(** X24. [get_ampacity] answers 0 for a size that is not in the table and
    for no other: the fallback value cannot be mistaken for the ampacity of
    a cataloged size. *)
Theorem ampacity_zero_iff_unknown (size : string) (rating : Z) :
  PrimFloat.eqb (get_ampacity size rating) 0 = true <->
  get_wire_properties size = None.
Proof.
  unfold get_ampacity.
  destruct (get_wire_properties size) as [w|] eqn:Hw.
  - apply assoc_In in Hw.
    pose proof (proj1 (forallb_forall _ _) wire_columns_positive _ Hw) as P.
    simpl in P. apply andb_prop in P as [P P90]. apply andb_prop in P as [P60 P75].
    apply negb_true_iff in P60, P75, P90.
    destruct (rating <=? 60)%Z; [rewrite P60; split; discriminate|].
    destruct (rating <=? 75)%Z; [rewrite P75 | rewrite P90]; split; discriminate.
  - split; reflexivity.
Qed.

(** ** Unknown sizes and unregistered circuits *)

(** X25. A conductor size outside the wire table makes the thermal and the
    voltage-drop analysis raise the unknown-size error, and with them
    [validate_system_constraints] and [generate_integration_report],
    whatever the registry, the loads and the timestamp. *)
Theorem unknown_wire_size_raises (self : ElectricalSystemAnalyzer) (c : CircuitData)
    (timestamp : result string) :
  get_wire_properties (wire_awg c) = None ->
  analyze_thermal_performance (config self) c = Raise (UnknownWireSize (wire_awg c)) /\
  analyze_voltage_drop (config self) c = Raise (UnknownWireSize (wire_awg c)) /\
  fst (validate_system_constraints self c) = Raise (UnknownWireSize (wire_awg c)) /\
  fst (generate_integration_report self c timestamp)
    = Raise (UnknownWireSize (wire_awg c)).
Proof.
  intros H.
  assert (Ht : forall cfg,
             analyze_thermal_performance cfg c = Raise (UnknownWireSize (wire_awg c))).
  { intros cfg. unfold analyze_thermal_performance. rewrite H. reflexivity. }
  assert (Hv : fst (validate_system_constraints self c)
               = Raise (UnknownWireSize (wire_awg c))).
  { unfold validate_system_constraints, evaluate_constraints. simpl.
    rewrite Ht. reflexivity. }
  split; [apply Ht|]. split.
  - unfold analyze_voltage_drop. rewrite H. reflexivity.
  - split; [exact Hv|]. unfold generate_integration_report.
    destruct (validate_system_constraints self c) as [[checks|e] s1];
      simpl in *; [discriminate Hv | injection Hv as ->; reflexivity].
Qed.

Lemma unknown_wire_size_raises_witness :
  fst (generate_integration_report Scenario.panel_with_branch
         Scenario.uncataloged_branch (Ok "now")) = Raise (UnknownWireSize "13").
Proof.
  apply (unknown_wire_size_raises Scenario.panel_with_branch Scenario.uncataloged_branch).
  reflexivity.
Defined.

(** X26. [analyze_fault_current] works on registered circuits only: for
    the id of a candidate that was validated or reported on it answers that
    the circuit is not found, and for the id of a circuit just added it
    finds the circuit. *)
Theorem fault_analysis_needs_registration (self : ElectricalSystemAnalyzer)
    (c : CircuitData) (timestamp : result string) (upstream impedance : float) :
  analyze_fault_current (snd (validate_system_constraints self c))
                        (circuit_id c) upstream impedance
    = NotRegistered (circuit_id c) /\
  analyze_fault_current (snd (generate_integration_report self c timestamp))
                        (circuit_id c) upstream impedance
    = NotRegistered (circuit_id c) /\
  exists r, analyze_fault_current (add_circuit c self) (circuit_id c) upstream impedance
            = Found r.
Proof.
  assert (Hgone : forall s, circuits (release c (add_circuit c s)) !! circuit_id c = None).
  { intros s. rewrite release_graft_circuits. apply lookup_delete_eq. }
  split; [|split].
  - unfold analyze_fault_current. simpl. rewrite Hgone. reflexivity.
  - unfold analyze_fault_current.
    destruct (report_state self c timestamp) as [E|E]; rewrite E, Hgone; reflexivity.
  - unfold analyze_fault_current. rewrite grafted_lookup. eauto.
Qed.

(** the fault analysis of the example circuit once it is added *)
Example example_fault_analysis :
  exists a,
    analyze_fault_current (add_circuit example_circuit new_analyzer) "BRANCH-201"
                          10000.0 0.06 = Found (Ok a) /\
    fault_clearing_time_cycles a = 0.5%float.
Proof. eexists. split; [vm_compute; reflexivity | reflexivity]. Qed.

(** ** What of a load matters to a validation *)

Lemma same_demand_base (a b : LoadData) :
  same_demand a b ->
  is_continuous a = is_continuous b /\
  base_current true None a = base_current true None b.
Proof.
  intros (Hn & Hd & Hc & Ht & _). unfold is_continuous, base_current.
  rewrite Hn, Hd, Hc, Ht. split; reflexivity.
Qed.

Lemma same_demand_continuous (ls ls' : list LoadData) :
  Forall2 same_demand ls ls' ->
  map (base_current true None) (List.filter is_continuous ls)
  = map (base_current true None) (List.filter is_continuous ls').
Proof.
  induction 1 as [|a b l l' Hab _ IH]; [reflexivity|].
  destruct (same_demand_base a b Hab) as [Hc Hb].
  cbn [List.filter]. rewrite Hc.
  destruct (is_continuous b); [cbn [map]; rewrite Hb, IH; reflexivity | exact IH].
Qed.

Lemma same_demand_non_continuous (ls ls' : list LoadData) :
  Forall2 same_demand ls ls' ->
  map (base_current true None) (List.filter (fun l => negb (is_continuous l)) ls)
  = map (base_current true None) (List.filter (fun l => negb (is_continuous l)) ls').
Proof.
  induction 1 as [|a b l l' Hab _ IH]; [reflexivity|].
  destruct (same_demand_base a b Hab) as [Hc Hb].
  cbn [List.filter]. rewrite Hc.
  destruct (is_continuous b); cbn [negb];
    [exact IH | cbn [map]; rewrite Hb, IH; reflexivity].
Qed.

Lemma same_demand_design (ls ls' : list LoadData) :
  Forall2 same_demand ls ls' ->
  design_current (calculate_load_current ls true None)
  = design_current (calculate_load_current ls' true None).
Proof.
  intros Hsame. unfold calculate_load_current; simpl.
  destruct (fold_load_step true None ls totals0) as (Hc & Hn & _).
  destruct (fold_load_step true None ls' totals0) as (Hc' & Hn' & _).
  simpl in *. rewrite Hc, Hn, Hc', Hn'.
  rewrite (same_demand_continuous _ _ Hsame), (same_demand_non_continuous _ _ Hsame).
  reflexivity.
Qed.

Lemma same_demand_fundamental (ls ls' : list LoadData) (acc : float) :
  Forall2 same_demand ls ls' ->
  fold_left (fun acc load => PrimFloat.add acc (nominal_current load)) ls acc
  = fold_left (fun acc load => PrimFloat.add acc (nominal_current load)) ls' acc.
Proof.
  intros Hsame. revert acc.
  induction Hsame as [|a b l l' (Hn & _) _ IH]; intros acc; simpl; [reflexivity|].
  rewrite Hn. apply IH.
Qed.

Lemma same_demand_currents (ls ls' : list LoadData) (d : list (Z * float)) :
  Forall2 same_demand ls ls' ->
  fold_left (fun d load =>
               accumulate_harmonics (nominal_current load) (harmonic_content load) d)
            ls d
  = fold_left (fun d load =>
                 accumulate_harmonics (nominal_current load) (harmonic_content load) d)
              ls' d.
Proof.
  intros Hsame. revert d.
  induction Hsame as [|a b l l' (Hn & _ & _ & _ & Hh) _ IH]; intros d; simpl;
    [reflexivity|].
  rewrite Hn, Hh. apply IH.
Qed.

Lemma same_demand_harmonic (ls ls' : list LoadData) :
  Forall2 same_demand ls ls' ->
  analyze_harmonic_distortion ls' = analyze_harmonic_distortion ls.
Proof.
  intros Hsame. unfold analyze_harmonic_distortion.
  rewrite <- (same_demand_fundamental _ _ _ Hsame), <- (same_demand_currents _ _ _ Hsame).
  reflexivity.
Qed.

Lemma same_demand_refl (l : LoadData) : same_demand l l.
Proof. unfold same_demand. auto. Qed.

Lemma same_demand_list_refl (ls : list LoadData) : Forall2 same_demand ls ls.
Proof. induction ls; constructor; [apply same_demand_refl | assumption]. Qed.

Section OtherLoads.

Variable c : CircuitData.
Variable ls' : list LoadData.
Hypothesis Hsame : Forall2 same_demand (loads c) ls'.

Lemma with_loads_thermal (cfg : Config) :
  analyze_thermal_performance cfg (with_loads ls' c)
  = analyze_thermal_performance cfg c.
Proof.
  unfold analyze_thermal_performance, with_loads.
  cbn [loads wire_awg ambient_temperature_c number_of_conductors
       conduit_fill_percentage].
  rewrite <- (same_demand_design _ _ Hsame). reflexivity.
Qed.

Lemma with_loads_try_sizes (cfg : Config) (design : float) (sizes : list string) :
  try_sizes cfg (with_loads ls' c) design sizes = try_sizes cfg c design sizes.
Proof.
  induction sizes as [|sz rest IH]; simpl; [reflexivity|].
  rewrite IH. reflexivity.
Qed.

Lemma with_loads_recommend (cfg : Config) (design pct : float) :
  _recommend_wire_upgrade cfg (with_loads ls' c) design pct
  = _recommend_wire_upgrade cfg c design pct.
Proof.
  unfold _recommend_wire_upgrade.
  change (wire_awg (with_loads ls' c)) with (wire_awg c).
  destruct (list_index (wire_awg c) wire_sizes) as [i|e]; [|reflexivity].
  cbn [rbind]. apply with_loads_try_sizes.
Qed.

Lemma with_loads_voltage (cfg : Config) :
  analyze_voltage_drop cfg (with_loads ls' c) = analyze_voltage_drop cfg c.
Proof.
  unfold analyze_voltage_drop.
  change (loads (with_loads ls' c)) with ls'.
  change (wire_awg (with_loads ls' c)) with (wire_awg c).
  change (wire_length_ft (with_loads ls' c)) with (wire_length_ft c).
  change (voltage_rating (with_loads ls' c)) with (voltage_rating c).
  rewrite <- (same_demand_design _ _ Hsame).
  destruct (get_wire_properties (wire_awg c)); [|reflexivity].
  destruct (Py.div _ _) as [q|e]; [|reflexivity].
  cbn [rbind]. rewrite with_loads_recommend. reflexivity.
Qed.

Lemma with_loads_child_loads (self : ElectricalSystemAnalyzer) (p : string) :
  Forall2 same_demand
    (all_child_loads (add_circuit c self) p)
    (all_child_loads (add_circuit (with_loads ls' c) self) p).
Proof.
  unfold all_child_loads.
  change (system_hierarchy (add_circuit (with_loads ls' c) self))
    with (system_hierarchy (add_circuit c self)).
  generalize (default [] (system_hierarchy (add_circuit c self) !! p)).
  intros children.
  assert (G : forall acc acc', Forall2 same_demand acc acc' ->
    Forall2 same_demand
      (fold_left (fun acc child_id =>
                    match circuits (add_circuit c self) !! child_id with
                    | Some child_circuit => (acc ++ loads child_circuit)%list
                    | None => acc
                    end) children acc)
      (fold_left (fun acc child_id =>
                    match circuits (add_circuit (with_loads ls' c) self) !! child_id with
                    | Some child_circuit => (acc ++ loads child_circuit)%list
                    | None => acc
                    end) children acc')).
  { induction children as [|k rest IH]; intros acc acc' Hacc; simpl; [exact Hacc|].
    apply IH. simpl.
    destruct (decide (circuit_id c = k)) as [<-|Hne].
    - rewrite !lookup_insert_eq. simpl.
      apply Forall2_app; [exact Hacc | exact Hsame].
    - rewrite !lookup_insert_ne by exact Hne.
      destruct (circuits self !! k); [|exact Hacc].
      apply Forall2_app; [exact Hacc | apply same_demand_list_refl]. }
  apply G. constructor.
Qed.

Lemma with_loads_parent_loading (self : ElectricalSystemAnalyzer) :
  parent_loading (add_circuit (with_loads ls' c) self) (with_loads ls' c)
  = parent_loading (add_circuit c self) c.
Proof.
  unfold parent_loading.
  change (parent_circuit_id (with_loads ls' c)) with (parent_circuit_id c).
  destruct (parent_circuit_id c) as [p|]; [|reflexivity].
  destruct (Py.truthy (Some p)); [|reflexivity].
  rewrite <- (same_demand_design _ _ (with_loads_child_loads self p)).
  change (config (add_circuit (with_loads ls' c) self))
    with (config (add_circuit c self)).
  simpl circuits.
  destruct (decide (circuit_id c = p)) as [<-|Hne].
  - rewrite !lookup_insert_eq. rewrite with_loads_thermal. reflexivity.
  - rewrite !lookup_insert_ne by exact Hne. reflexivity.
Qed.

End OtherLoads.

(** X27. A validation looks at the loads of the candidate only through
    their nominal current, diversity factor, critical flag, type and
    harmonic content: replacing the loads by loads that agree on these
    fields, and differ in power factor, nominal power and voltage, starting
    multiplier, operating schedule or id, gives the same checks or the same
    exception. *)
Theorem validation_ignores_other_fields (self : ElectricalSystemAnalyzer)
    (c : CircuitData) (ls' : list LoadData) :
  Forall2 same_demand (loads c) ls' ->
  fst (validate_system_constraints self (with_loads ls' c))
  = fst (validate_system_constraints self c).
Proof.
  intros Hsame. unfold validate_system_constraints; simpl.
  unfold evaluate_constraints.
  rewrite (with_loads_parent_loading c ls' Hsame).
  change (config (add_circuit (with_loads ls' c) self))
    with (config (add_circuit c self)).
  rewrite (with_loads_thermal c ls' Hsame), (with_loads_voltage c ls' Hsame).
  change (loads (with_loads ls' c)) with ls'.
  rewrite (same_demand_harmonic _ _ Hsame).
  unfold thermal_check. change (loads (with_loads ls' c)) with ls'.
  rewrite <- (same_demand_design _ _ Hsame). reflexivity.
Qed.

Lemma validation_ignores_other_fields_witness :
  let other := {|
    load_id := "L3-bis"; load_type := RESISTIVE;
    nominal_voltage := 240.0; nominal_current := 150.0; nominal_power := 1.0;
    power_factor := 0.5; starting_current_multiplier := 9.0;
    diversity_factor := 1.0; critical_load := false;
    harmonic_content := []; operating_schedule := [0.1%float] |} in
  fst (validate_system_constraints Scenario.panel_with_branch
         (with_loads [other] Scenario.heavy_branch))
  = fst (validate_system_constraints Scenario.panel_with_branch Scenario.heavy_branch).
Proof.
  intros other. apply validation_ignores_other_fields.
  constructor; [|constructor].
  unfold same_demand. simpl. auto.
Defined.

(** ** What of a circuit matters to a validation *)

Section SameConductor.

Variables c c' : CircuitData.
Hypothesis Hsame : same_conductor c c'.

Lemma same_conductor_thermal (cfg : Config) :
  analyze_thermal_performance cfg c' = analyze_thermal_performance cfg c.
Proof.
  destruct Hsame as (_ & Hw & _ & Ha & Hn & _ & Hl & _).
  unfold analyze_thermal_performance, _get_conduit_fill_correction_factor.
  rewrite Hw, Ha, Hn, Hl. reflexivity.
Qed.

Lemma same_conductor_test (design : float) (w : WireProperties) :
  test_vd_percent c' design w = test_vd_percent c design w.
Proof.
  destruct Hsame as (_ & _ & Hlen & _ & _ & Hv & _).
  unfold test_vd_percent. rewrite Hlen, Hv. reflexivity.
Qed.

Lemma same_conductor_try_sizes (cfg : Config) (design : float) (sizes : list string) :
  try_sizes cfg c' design sizes = try_sizes cfg c design sizes.
Proof.
  induction sizes as [|sz rest IH]; cbn [try_sizes]; [reflexivity|].
  destruct (get_wire_properties sz); [|exact IH].
  rewrite same_conductor_test, IH. reflexivity.
Qed.

Lemma same_conductor_voltage (cfg : Config) :
  analyze_voltage_drop cfg c' = analyze_voltage_drop cfg c.
Proof.
  pose proof Hsame as (_ & Hw & Hlen & _ & _ & Hv & Hl & _).
  unfold analyze_voltage_drop, _recommend_wire_upgrade.
  rewrite Hw, Hlen, Hv, Hl.
  destruct (get_wire_properties (wire_awg c')); [|reflexivity].
  destruct (Py.div _ _) as [q|e]; [|reflexivity].
  cbn [rbind]. destruct (PrimFloat.leb _ _); [reflexivity|].
  destruct (list_index (wire_awg c') wire_sizes) as [i|e]; [|reflexivity].
  cbn [rbind]. rewrite same_conductor_try_sizes. reflexivity.
Qed.

Lemma same_conductor_child_loads (self : ElectricalSystemAnalyzer) (p : string) :
  all_child_loads (add_circuit c' self) p = all_child_loads (add_circuit c self) p.
Proof.
  pose proof Hsame as (Hid & _ & _ & _ & _ & _ & Hl & Hp).
  unfold all_child_loads.
  assert (Hh : system_hierarchy (add_circuit c' self)
               = system_hierarchy (add_circuit c self)).
  { unfold add_circuit; simpl. rewrite Hid, Hp. reflexivity. }
  rewrite Hh.
  generalize (default [] (system_hierarchy (add_circuit c self) !! p)).
  intros children. generalize (@nil LoadData).
  induction children as [|k rest IH]; intros acc; simpl; [reflexivity|].
  rewrite <- IH. f_equal.
  destruct (decide (circuit_id c = k)) as [<-|Hne].
  - rewrite <- Hid at 1. rewrite !lookup_insert_eq, Hl. reflexivity.
  - rewrite !lookup_insert_ne by congruence. reflexivity.
Qed.

Lemma same_conductor_parent_loading (self : ElectricalSystemAnalyzer) :
  parent_loading (add_circuit c' self) c' = parent_loading (add_circuit c self) c.
Proof.
  pose proof Hsame as (Hid & _ & _ & _ & _ & _ & _ & Hp).
  unfold parent_loading. rewrite <- Hp.
  destruct (parent_circuit_id c) as [p|]; [|reflexivity].
  destruct (Py.truthy (Some p)); [|reflexivity].
  rewrite same_conductor_child_loads.
  change (config (add_circuit c' self)) with (config (add_circuit c self)).
  simpl circuits.
  destruct (decide (circuit_id c = p)) as [<-|Hne].
  - rewrite <- Hid at 1. rewrite !lookup_insert_eq, same_conductor_thermal. reflexivity.
  - rewrite !lookup_insert_ne by congruence. reflexivity.
Qed.

End SameConductor.

(** X28. A validation does not consult the protection device, the circuit
    type or the conduit fill percentage of the candidate: two candidates
    that agree on every other field get the same checks or the same
    exception. *)
Theorem validation_ignores_protection (self : ElectricalSystemAnalyzer)
    (c c' : CircuitData) :
  same_conductor c c' ->
  fst (validate_system_constraints self c')
  = fst (validate_system_constraints self c).
Proof.
  intros Hsame. unfold validate_system_constraints; simpl.
  unfold evaluate_constraints.
  rewrite (same_conductor_parent_loading c c' Hsame).
  change (config (add_circuit c' self)) with (config (add_circuit c self)).
  rewrite (same_conductor_thermal c c' Hsame), (same_conductor_voltage c c' Hsame).
  destruct Hsame as (_ & _ & _ & _ & _ & _ & Hl & _).
  unfold thermal_check. rewrite Hl. reflexivity.
Qed.

Lemma validation_ignores_protection_witness :
  let unprotected := {|
    circuit_id := "BRANCH-201"; circuit_type := SERVICE;
    wire_awg := "12"; wire_length_ft := 100.0;
    conduit_fill_percentage := 95.0; ambient_temperature_c := 30.0;
    number_of_conductors := 3; voltage_rating := 120.0;
    loads := [example_load];
    protection_device := {|
      device_id := "F-1"; protection_type := FUSE;
      current_rating := 1.0; device_voltage_rating := 12.0;
      interrupting_rating := 0.0; trip_curve_type := "";
      instantaneous_trip_multiplier := 0.0;
      time_delay_characteristics := [] |};
    parent_circuit_id := None |} in
  fst (validate_system_constraints new_analyzer unprotected)
  = fst (validate_system_constraints new_analyzer example_circuit).
Proof.
  intros unprotected. apply validation_ignores_protection.
  unfold same_conductor. simpl. auto 10.
Defined.

(** ** What of the registry matters to a validation *)

Lemma fold_child_loads_ext (reg reg' : gmap string CircuitData) (children : list string)
    (acc : list LoadData) :
  (forall k, In k children -> reg !! k = reg' !! k) ->
  fold_left
    (fun acc child_id =>
       match reg !! child_id with
       | Some child_circuit => (acc ++ loads child_circuit)%list
       | None => acc
       end) children acc
  = fold_left
      (fun acc child_id =>
         match reg' !! child_id with
         | Some child_circuit => (acc ++ loads child_circuit)%list
         | None => acc
         end) children acc.
Proof.
  revert acc. induction children as [|k rest IH]; intros acc H; simpl; [reflexivity|].
  rewrite (H k (or_introl eq_refl)). apply IH. intros k' Hk'. apply H. now right.
Qed.

Lemma grafted_children (self : ElectricalSystemAnalyzer) (c : CircuitData) (p : string) :
  parent_circuit_id c = Some p -> Py.truthy (Some p) = true ->
  system_hierarchy (add_circuit c self) !! p
  = Some (default [] (system_hierarchy self !! p) ++ [circuit_id c])%list.
Proof.
  intros Hp Htr. unfold add_circuit. cbn [system_hierarchy]. rewrite Hp, Htr.
  apply lookup_insert_eq.
Qed.

(** X29. A validation reads the registry only at the candidate's parent:
    two analyzers with the same configuration that agree on the child list
    of the parent id, on the parent's record and on the records of the
    listed children give the same checks or the same exception, whatever
    else they hold; for a candidate without a parent the registry does not
    matter at all. *)
Theorem validation_reads_parent_only (self self' : ElectricalSystemAnalyzer)
    (c : CircuitData) :
  config self = config self' ->
  (forall p, parent_circuit_id c = Some p ->
     system_hierarchy self !! p = system_hierarchy self' !! p /\
     circuits self !! p = circuits self' !! p /\
     forall k, In k (default [] (system_hierarchy self !! p)) ->
               circuits self !! k = circuits self' !! k) ->
  fst (validate_system_constraints self c)
  = fst (validate_system_constraints self' c).
Proof.
  intros Hcfg Hreg. unfold validate_system_constraints; simpl.
  unfold evaluate_constraints.
  change (config (add_circuit c self)) with (config self).
  change (config (add_circuit c self')) with (config self').
  rewrite <- Hcfg.
  assert (Hpl : parent_loading (add_circuit c self) c
                = parent_loading (add_circuit c self') c).
  { unfold parent_loading.
    change (config (add_circuit c self)) with (config self).
    change (config (add_circuit c self')) with (config self').
    rewrite <- Hcfg.
    destruct (parent_circuit_id c) as [p|] eqn:Hp; [|reflexivity].
    destruct (Hreg p eq_refl) as (Hh & Hc & Hk).
    destruct (Py.truthy (Some p)) eqn:Htr; [|reflexivity].
    assert (Hlook : forall k, k = circuit_id c \/ circuits self !! k = circuits self' !! k ->
              circuits (add_circuit c self) !! k = circuits (add_circuit c self') !! k).
    { intros k [->|E]; simpl.
      - rewrite !lookup_insert_eq. reflexivity.
      - destruct (decide (circuit_id c = k)) as [<-|Hne].
        + rewrite !lookup_insert_eq. reflexivity.
        + rewrite !lookup_insert_ne by exact Hne. exact E. }
    assert (Hloads : all_child_loads (add_circuit c self) p
                     = all_child_loads (add_circuit c self') p).
    { unfold all_child_loads.
      rewrite !(grafted_children _ _ _ Hp Htr), <- Hh. cbn [default].
      apply fold_child_loads_ext. intros k Hin. apply Hlook.
      apply in_app_or in Hin as [Hin|[<-|[]]]; [right; apply Hk, Hin | left; reflexivity]. }
    rewrite Hloads, (Hlook p (or_intror Hc)). reflexivity. }
  rewrite Hpl. reflexivity.
Qed.

Lemma validation_reads_parent_only_witness :
  fst (validate_system_constraints Scenario.panel_with_two_branches example_circuit)
  = fst (validate_system_constraints new_analyzer example_circuit).
Proof.
  apply validation_reads_parent_only; [reflexivity|].
  intros p H. discriminate H.
Defined.
